(** * A shallow embedding of the Hasura storage client

    The development follows the two TypeScript classes of the package:

    - [HasuraStorageApi]    (src/hasura-storage-api.ts), the transport adapter;
    - [HasuraStorageClient] (src/hasura-storage-client.ts), the facade.

    JavaScript values are embedded as an inductive type with the language's
    truthiness; an [async] method is a computation over the mutable state of
    the program that either returns (the promise resolves) or throws (the
    promise rejects).  The HTTP service is an arbitrary function from the
    request to its outcome, and every request handed to the HTTP client is
    recorded, so that "no network call" is a statement about that record. *)

From Stdlib Require Import ZArith Ascii String.
From Stdlib.Strings Require Import Byte.
From stdpp Require Import gmap strings list fin_maps.

Local Open Scope Z_scope.

(** ** JavaScript values *)

Module Js.

(** The values that cross the boundaries of the two classes: response
    bodies, thrown values, the fields of the result objects.  Text is
    held as its UTF-8 byte sequence; the string operations the source
    uses only cut at ASCII delimiters, which UTF-8 preserves.  [Error] is
    an error object with its name and message, as [new Error] makes it;
    [TypeError] is one the engine raises itself, whose message is the
    engine's own and is not modelled. *)
#[warnings="-register-all"]
Inductive value : Type :=
  | Undefined
  | Null
  | Bool (b : bool)
  | Number (n : Z)
  | Str (s : string)
  | Error (name message : string)
  | TypeError
  | Array (items : list value)
  | Object (fields : gmap string value).

(** [ToBoolean]: what [if (v)], [!v] and [v || w] test. *)
Definition truthy (v : value) : bool :=
  match v with
  | Undefined | Null => false
  | Bool b => b
  | Number n => negb (n =? 0)
  | Str s => negb (String.eqb s "")
  | Error _ _ | TypeError | Array _ | Object _ => true
  end.

(** Truthiness of a [string | undefined] (or [string | null]) field. *)
Definition truthy_str (o : option string) : bool :=
  match o with
  | Some s => negb (String.eqb s "")
  | None => false
  end.

Definition is_null (v : value) : bool :=
  match v with Null => true | _ => false end.

(** [new Error(message)] *)
Definition new_Error (message : string) : value := Error "Error" message.

(** Property read [v.key]; [None] is the [TypeError] raised when [v] is
    [null] or [undefined], primitives and arrays have no such own field. *)
Definition get (v : value) (key : string) : option value :=
  match v with
  | Undefined | Null => None
  | Object fields => Some (default Undefined (fields !! key))
  | _ => Some Undefined
  end.

(** *** String methods *)

(** [s.startsWith(search)] *)
Fixpoint startsWith (s search : string) : bool :=
  match search, s with
  | EmptyString, _ => true
  | String c search', String d s' =>
      if Ascii.eqb c d then startsWith s' search' else false
  | String _ _, EmptyString => false
  end.

(** [s.substring(start)]: a negative start counts as 0, a start beyond
    the end gives the empty string. *)
Fixpoint drop_chars (n : nat) (s : string) : string :=
  match n, s with
  | O, _ => s
  | S n', String _ s' => drop_chars n' s'
  | S _, EmptyString => EmptyString
  end.

Fixpoint take_chars (n : nat) (s : string) : string :=
  match n, s with
  | S n', String c s' => String c (take_chars n' s')
  | _, _ => EmptyString
  end.

Definition substring_from (s : string) (start : Z) : string :=
  drop_chars (Z.to_nat start) s.

(** [s.substring(start, end)]: both indices are clamped to [0, length],
    and swapped when [start > end]. *)
Definition substring (s : string) (start end_ : Z) : string :=
  let len := Z.of_nat (String.length s) in
  let a := Z.min (Z.max 0 start) len in
  let b := Z.min (Z.max 0 end_) len in
  let lo := Z.min a b in
  let hi := Z.max a b in
  take_chars (Z.to_nat (hi - lo)) (drop_chars (Z.to_nat lo) s).

(** [s.endsWith(search)] *)
Definition endsWith (s search : string) : bool :=
  let n := String.length s in
  let k := String.length search in
  if (k <=? n)%nat then String.eqb (drop_chars (n - k) s) search else false.

(** [s.indexOf(search)]: the first position, or -1. *)
Fixpoint indexOf_at (i : Z) (s search : string) : Z :=
  if startsWith s search then i
  else match s with
       | EmptyString => -1
       | String _ s' => indexOf_at (i + 1) s' search
       end.

Definition indexOf (s search : string) : Z := indexOf_at 0 s search.

(** *** The regular expression [/^data:([^,]+)?,/]

    [match_data_url s] is [s.match(/^data:([^,]+)?,/)]: [None] for
    [null], otherwise [Some g] with [g] the capture group 1 of the match
    array ([None] when the optional group did not take part).  The
    pattern is anchored, so the literal [data:] is read at position 0;
    the greedy class [[^,]+] then reads up to the first comma, and the
    literal [,] must follow. *)
Fixpoint until_comma (s : string) : option string :=
  match s with
  | EmptyString => None
  | String c s' =>
      if Ascii.eqb c ","%char then Some EmptyString
      else option_map (String c) (until_comma s')
  end.

Definition match_data_url (s : string) : option (option string) :=
  if startsWith s "data:" then
    match until_comma (drop_chars 5 s) with
    | None => None
    | Some EmptyString => Some None
    | Some g => Some (Some g)
    end
  else None.

End Js.

(** ** The codecs of [./utils] *)

Module Utils.

(** Modelled from the spec: the enumeration [StringFormat] of the module
    [./utils], which is not part of the sources at hand; only the member
    the client names is needed. *)
Inductive StringFormat : Type := BASE64.

(** Modelled from the spec: [utf8Bytes] of [./utils] (absent from the
    sources), "payload = UTF-8 byte encoding of the string".  Text is held
    as its UTF-8 bytes, so the encoding reads them off. *)
Definition utf8Bytes (value : string) : list byte :=
  list_byte_of_string value.

Definition byte_of_N (n : N) : byte := byte_of_ascii (ascii_of_N n).

(** The value of a digit of the standard base64 alphabet
    [A-Z a-z 0-9 + /]. *)
Definition base64_digit (c : ascii) : option N :=
  let n := N_of_ascii c in
  if ((65 <=? n) && (n <=? 90))%N then Some (n - 65)%N
  else if ((97 <=? n) && (n <=? 122))%N then Some (n - 71)%N
  else if ((48 <=? n) && (n <=? 57))%N then Some (n + 4)%N
  else if (n =? 43)%N then Some 62%N
  else if (n =? 47)%N then Some 63%N
  else None.

Fixpoint base64_digits (s : string) : option (list N) :=
  match s with
  | EmptyString => Some []
  | String c s' =>
      match base64_digit c, base64_digits s' with
      | Some d, Some ds => Some (d :: ds)
      | _, _ => None
      end
  end.

(** Four digits carry three bytes; a final group of two or three digits
    carries one or two. *)
Fixpoint base64_groups (ds : list N) : option (list byte) :=
  match ds with
  | [] => Some []
  | [_] => None
  | [a; b] => Some [byte_of_N (a * 4 + b / 16)]
  | [a; b; c] =>
      Some [byte_of_N (a * 4 + b / 16); byte_of_N ((b mod 16) * 16 + c / 4)]
  | a :: b :: c :: d :: rest =>
      option_map
        (fun tl => byte_of_N (a * 4 + b / 16)
                   :: byte_of_N ((b mod 16) * 16 + c / 4)
                   :: byte_of_N ((c mod 4) * 64 + d) :: tl)
        (base64_groups rest)
  end%N.

(** At most two trailing [=] pad the last group. *)
Definition strip_padding (s : string) : string :=
  if Js.endsWith s "==" then Js.substring s 0 (Z.of_nat (String.length s) - 2)
  else if Js.endsWith s "=" then Js.substring s 0 (Z.of_nat (String.length s) - 1)
  else s.

(** Modelled from the spec: [base64Bytes] of [./utils] (absent from the
    sources), "base64-decode the payload bytes".  [None] stands for the
    fault the decoder raises on text that is not base64. *)
Definition base64Bytes (format : StringFormat) (value : string)
  : option (list byte) :=
  match format with
  | BASE64 =>
      match base64_digits (strip_padding value) with
      | Some ds => base64_groups ds
      | None => None
      end
  end.

Definition hex_digit (c : ascii) : option N :=
  let n := N_of_ascii c in
  if ((48 <=? n) && (n <=? 57))%N then Some (n - 48)%N
  else if ((65 <=? n) && (n <=? 70))%N then Some (n - 55)%N
  else if ((97 <=? n) && (n <=? 102))%N then Some (n - 87)%N
  else None.

(** Modelled from the spec: [percentEncodedBytes] of [./utils] (absent
    from the sources), "percent-decode (URL-decode) the payload bytes":
    an escape [%XY] stands for the byte with hexadecimal digits [XY],
    every other character for its own byte.  [None] stands for the fault
    raised on a [%] that no two hexadecimal digits follow. *)
Fixpoint percentEncodedBytes (value : string) : option (list byte) :=
  match value with
  | EmptyString => Some []
  | String "%" (String h (String l rest)) =>
      match hex_digit h, hex_digit l, percentEncodedBytes rest with
      | Some a, Some b, Some tl => Some (byte_of_N (a * 16 + b) :: tl)
      | _, _, _ => None
      end
  | String "%" _ => None
  | String c rest =>
      option_map (cons (byte_of_ascii c)) (percentEncodedBytes rest)
  end.

End Utils.

(** ** The HTTP client *)

Module Http.

Inductive Method : Type := GET | POST | DELETE.

(** The arguments of [new File([bits], name, { type })]. *)
Record File : Type := mkFile {
  bits : list byte;
  name : string;
  type : option string
}.

(** A [FormData]: the entries in the order they were appended. *)
Definition FormData : Type := list (string * File).

(** An upload progress observer, known by its identity only. *)
Definition Callback : Type := nat.

(** JavaScript objects used as header maps. *)
Abbreviation Headers := (gmap string string).

(** What the adapter hands to its axios instance for one call: the
    instance settings [baseURL] and [timeout] with the method, the
    relative url, the body and the per-call configuration. *)
Record Request : Type := mkRequest {
  method : Method;
  baseURL : string;
  timeout : Z;
  url : string;
  data : option FormData;
  headers : Headers;
  onUploadProgress : option Callback
}.

(** How a call ends: with a response whose body is [res.data], or with
    the value the client throws (network failure, timeout, non-2xx). *)
Inductive Outcome : Type :=
  | Response (body : Js.value)
  | Failure (reason : Js.value).

(** The object spread [{...a, ...b}]: later sources override earlier
    ones, and spreading [null] contributes nothing. *)
Definition spread (sources : list (option Headers)) : Headers :=
  foldl (fun acc src => default ∅ src ∪ acc) ∅ sources.

End Http.

(** ** Parameter and result objects *)

(** Modelled from the spec: the type declarations of [./utils/types]
    (absent from the sources), read off the spec's data model and the
    fields the two classes use. *)
Record ApiUploadParams : Type := mkApiUploadParams {
  api_file : Http.FormData;
  api_bucketId : option string;
  api_id : option string;
  api_name : option string
}.

(** The argument of the facade's [upload]; [{ ...params, file }] hands
    the three optional fields on to the adapter. *)
Record StorageUploadParams : Type := mkStorageUploadParams {
  up_file : Http.File;
  up_bucketId : option string;
  up_id : option string;
  up_name : option string
}.

(** The argument of [uploadFileToStorage]. *)
Record StorageUploadFile : Type := mkStorageUploadFile {
  uf_path : string;
  uf_file : Http.File;
  uf_onUploadProgress : option Http.Callback
}.

(** The argument of [uploadStringToStorage]; [type] is the encoding,
    ["raw"] or ["data_url"] when set. *)
Record StorageUploadString : Type := mkStorageUploadString {
  us_path : string;
  us_data : string;
  us_type : option string;
  us_metadata : option (gmap string string);
  us_onUploadProgress : option Http.Callback
}.

(** [{ fileMetadata, error }] *)
Record UploadResponse : Type := mkUploadResponse {
  fileMetadata : Js.value;
  upload_error : Js.value
}.

(** [{ presignedUrl, error }] *)
Record PresignedUrlResponse : Type := mkPresignedUrlResponse {
  presignedUrl : Js.value;
  presigned_error : Js.value
}.

(** [{ error }] *)
Record DeleteResponse : Type := mkDeleteResponse {
  delete_error : Js.value
}.

(** [{ metadata, error }] *)
Record MetadataResponse : Type := mkMetadataResponse {
  metadata : Js.value;
  metadata_error : Js.value
}.

(** The constructor arguments [{ url, appId }] shared by both classes. *)
Record Options : Type := mkOptions {
  opt_url : string;
  opt_appId : option string
}.

(** ** Asynchronous computations *)

(** Addresses of the caller's parameter objects. *)
Definition loc : Type := nat.

(** The mutable state: the adapter's private [accessToken], the requests
    handed to the HTTP client so far (oldest first), and the parameter
    objects of [uploadStringToStorage], which the method updates in place. *)
Record State : Type := mkState {
  accessToken : option string;
  sent : list Http.Request;
  objects : gmap loc StorageUploadString
}.

Inductive Completion (A : Type) : Type :=
  | Returned (a : A)
  | Thrown (e : Js.value).
Arguments Returned {A} a.
Arguments Thrown {A} e.

Definition Async (A : Type) : Type := State -> Completion A * State.

#[global] Instance Async_ret : MRet Async :=
  fun A a st => (Returned a, st).

#[global] Instance Async_bind : MBind Async :=
  fun A B k c st =>
    match c st with
    | (Returned a, st') => k a st'
    | (Thrown e, st') => (Thrown e, st')
    end.

Definition throw {A : Type} (e : Js.value) : Async A :=
  fun st => (Thrown e, st).

(** [try { body } catch (error) { handler }] *)
Definition try_catch {A : Type} (body : Async A) (handler : Js.value -> Async A)
  : Async A :=
  fun st =>
    match body st with
    | (Returned a, st') => (Returned a, st')
    | (Thrown e, st') => handler e st'
    end.

Definition get_accessToken : Async (option string) :=
  fun st => (Returned (accessToken st), st).

Definition put_accessToken (token : option string) : Async unit :=
  fun st => (Returned (), mkState token (sent st) (objects st)).

(** The [TypeError] the engine raises itself: on a property access on
    [undefined] or [null], on a call of what is not a function.  Its
    message is the engine's own choice and is not part of the value. *)
Definition type_error : Js.value := Js.TypeError.

Definition deref (ref : loc) : Async StorageUploadString :=
  fun st =>
    match objects st !! ref with
    | Some o => (Returned o, st)
    | None => (Thrown type_error, st)
    end.

Definition assign (ref : loc) (o : StorageUploadString) : Async unit :=
  fun st =>
    (Returned (), mkState (accessToken st) (sent st) (<[ref := o]> (objects st))).

(** ** The transport adapter: class [HasuraStorageApi] *)

Module HasuraStorageApi.
Section Api.

(** The remote service, as seen through the HTTP client. *)
Variable remote : Http.Request -> Http.Outcome.

(** [this.url] and [this.appId]. *)
Variable self : Options.

(** The [baseURL] of [axios.create] in the constructor. *)
Definition baseURL : string :=
  if Js.truthy_str (opt_appId self)
  then opt_url self +:+ "/custom/storage/" +:+ default "" (opt_appId self)
  else opt_url self.

(** One call of [this.httpClient]: the request is recorded, then the
    service answers or the client throws. *)
Definition httpClient (method : Http.Method) (url : string)
    (data : option Http.FormData) (headers : Http.Headers)
    (onUploadProgress : option Http.Callback) : Async Js.value :=
  fun st =>
    let req := Http.mkRequest method baseURL 10000 url data headers
                 onUploadProgress in
    let st' := mkState (accessToken st) (sent st ++ [req]) (objects st) in
    match remote req with
    | Http.Response body => (Returned body, st')
    | Http.Failure reason => (Thrown reason, st')
    end.

Definition setAccessToken (token : option string) : Async unit :=
  put_accessToken token.

Definition generateUploadHeaders (params : ApiUploadParams) : Http.Headers :=
  let uploadheaders : Http.Headers := ∅ in
  let uploadheaders :=
    if Js.truthy_str (api_bucketId params)
    then <["x-nhost-bucket-id" := default "" (api_bucketId params)]> uploadheaders
    else uploadheaders in
  let uploadheaders :=
    if Js.truthy_str (api_id params)
    then <["x-nhost-file-id" := default "" (api_id params)]> uploadheaders
    else uploadheaders in
  let uploadheaders :=
    if Js.truthy_str (api_name params)
    then <["x-nhost-file-name" := default "" (api_name params)]> uploadheaders
    else uploadheaders in
  uploadheaders.

Definition generateAuthHeaders : Async (option Http.Headers) :=
  token ← get_accessToken;
  if negb (Js.truthy_str token) then mret None
  else mret (Some {[ "Authorization" := "Bearer " +:+ default "" token ]}).

Definition upload (params : ApiUploadParams) : Async UploadResponse :=
  try_catch
    (auth ← generateAuthHeaders;
     res ← httpClient Http.POST "/files" (Some (api_file params))
             (Http.spread [Some (generateUploadHeaders params); auth]) None;
     mret (mkUploadResponse res Js.Null))
    (fun error => mret (mkUploadResponse Js.Null error)).

Definition getPresignedUrl (fileId : string) : Async PresignedUrlResponse :=
  try_catch
    (auth ← generateAuthHeaders;
     res ← httpClient Http.GET ("/files/" +:+ fileId +:+ "/presignedurl") None
             (Http.spread [auth]) None;
     mret (mkPresignedUrlResponse res Js.Null))
    (fun error => mret (mkPresignedUrlResponse Js.Null error)).

Definition delete (fileId : string) : Async DeleteResponse :=
  try_catch
    (auth ← generateAuthHeaders;
     _ ← httpClient Http.DELETE ("/files/" +:+ fileId) None
           (Http.spread [auth]) None;
     mret (mkDeleteResponse Js.Null))
    (fun error => mret (mkDeleteResponse error)).

Definition uploadFile (path : string) (formData : Http.FormData)
    (onUploadProgress : option Http.Callback) : Async UploadResponse :=
  try_catch
    (auth ← generateAuthHeaders;
     res ← httpClient Http.POST ("/o" +:+ path) (Some formData)
             (Http.spread
                [Some {[ "Content-Type" := "multipart/form-data" ]}; auth])
             onUploadProgress;
     mret (mkUploadResponse res Js.Null))
    (fun error => mret (mkUploadResponse Js.Null error)).

Definition deleteFile (path : string) : Async DeleteResponse :=
  try_catch
    (auth ← generateAuthHeaders;
     _ ← httpClient Http.DELETE ("/o" +:+ path) None (Http.spread [auth]) None;
     mret (mkDeleteResponse Js.Null))
    (fun error => mret (mkDeleteResponse error)).

(** No [try] here: what the HTTP client throws leaves the method. *)
Definition getMetadata (path : string) : Async Js.value :=
  auth ← generateAuthHeaders;
  res ← httpClient Http.GET ("/m" +:+ path) None (Http.spread [auth]) None;
  mret res.

End Api.
End HasuraStorageApi.

(** ** The facade: class [HasuraStorageClient] *)

Module HasuraStorageClient.
Section Client.

Variable remote : Http.Request -> Http.Outcome.

(** What the codecs of [./utils] raise on text they cannot decode. *)
Variable codecFault : Js.value.

(** [this.url] and [this.appId]; [this.api] is built from the same two. *)
Variable self : Options.

Definition path_fault : Js.value :=
  Js.new_Error "`path` must start with `/`".

Definition format_fault : Js.value :=
  Js.Str "Data must be formatted 'data:[<mediatype>][;base64],<data>".

(** The tail shared by the three upload methods:
    [if (error) ...; if (!fileMetadata) ...; return { fileMetadata, error: null }]. *)
Definition checked_upload (res : UploadResponse) : UploadResponse :=
  if Js.truthy (upload_error res)
  then mkUploadResponse Js.Null (upload_error res)
  else if negb (Js.truthy (fileMetadata res))
  then mkUploadResponse Js.Null (Js.new_Error "Invalid file returned")
  else mkUploadResponse (fileMetadata res) Js.Null.

Definition upload (params : StorageUploadParams) : Async UploadResponse :=
  let file : Http.FormData := [("file", up_file params)] in
  res ← HasuraStorageApi.upload remote self
          (mkApiUploadParams file (up_bucketId params) (up_id params)
             (up_name params));
  mret (checked_upload res).

Definition getUrl (fileId : string) : string :=
  if Js.truthy_str (opt_appId self)
  then "/custom/storage/" +:+ default "" (opt_appId self) +:+ "/o/" +:+ fileId
  else opt_url self +:+ "/files/" +:+ fileId.

Definition getPresignedUrl (fileId : string) : Async PresignedUrlResponse :=
  res ← HasuraStorageApi.getPresignedUrl remote self fileId;
  if Js.truthy (presigned_error res)
  then mret (mkPresignedUrlResponse Js.Null (presigned_error res))
  else if negb (Js.truthy (presignedUrl res))
  then mret (mkPresignedUrlResponse Js.Null (Js.new_Error "Invalid file id"))
  else mret (mkPresignedUrlResponse (presignedUrl res) Js.Null).

Definition delete (fileId : string) : Async DeleteResponse :=
  res ← HasuraStorageApi.delete remote self fileId;
  if Js.truthy (delete_error res)
  then mret (mkDeleteResponse (delete_error res))
  else mret (mkDeleteResponse Js.Null).

Definition uploadFileToStorage (params : StorageUploadFile)
  : Async UploadResponse :=
  if negb (Js.startsWith (uf_path params) "/") then throw path_fault
  else
    let formData : Http.FormData := [("file", uf_file params)] in
    res ← HasuraStorageApi.uploadFile remote self (uf_path params) formData
            (uf_onUploadProgress params);
    mret (checked_upload res).

(** [x === s] for a [string | undefined] field. *)
Definition is_str (x : option string) (s : string) : bool :=
  match x with
  | Some x' => String.eqb x' s
  | None => false
  end.

Definition decoded (bytes : option (list byte)) : Async (list byte) :=
  match bytes with
  | Some b => mret b
  | None => throw codecFault
  end.

(** The [data_url] branch, from the match to [fileData]. *)
Definition decode_data_url (data : string)
  : Async (option (list byte) * option string) :=
  match Js.match_data_url data with
  | None => throw format_fault
  | Some group1 =>
      let middle := if Js.truthy_str group1 then group1 else None in
      let '(isBase64, contentType) :=
        match middle with
        | Some m =>
            let isBase64 := Js.endsWith m ";base64" in
            (isBase64,
             Some (if isBase64
                   then Js.substring m 0
                          (Z.of_nat (String.length m)
                           - Z.of_nat (String.length ";base64"))
                   else m))
        | None => (false, None)
        end in
      let restData := Js.substring_from data (Js.indexOf data "," + 1) in
      fileData ← decoded (if isBase64
                          then Utils.base64Bytes Utils.BASE64 restData
                          else Utils.percentEncodedBytes restData);
      mret (Some fileData, contentType)
  end.

(** [params.metadata && params.metadata.hasOwnProperty("content-type")
      ? params.metadata["content-type"] : undefined].
    Without metadata the content type is [undefined].  The method
    [hasOwnProperty] is looked up on the metadata object, so an own entry
    of that name comes before the inherited method: its value is a string,
    and calling it is a [TypeError]. *)
Definition metadata_content_type (metadata : option (gmap string string))
  : Async (option string) :=
  match metadata with
  | None => mret None
  | Some m =>
      match m !! "hasOwnProperty" with
      | Some _ => throw type_error
      | None => mret (m !! "content-type")
      end
  end.

(** The first half of [uploadStringToStorage], up to the form data: the
    path check, the default [type], the decoding and the file object.  It
    returns the arguments of the adapter call.  The parameter object is
    the caller's: the method reads it through its address and writes the
    default [type] into it. *)
Definition stringFormData (ref : loc)
  : Async (string * Http.FormData * option Http.Callback) :=
  params ← deref ref;
  if negb (Js.startsWith (us_path params) "/") then throw path_fault
  else
    _ ← (if negb (Js.truthy_str (us_type params))
         then assign ref
                (mkStorageUploadString (us_path params) (us_data params)
                   (Some "raw") (us_metadata params)
                   (us_onUploadProgress params))
         else mret ());
    params ← deref ref;
    '(fileData, contentType) ←
      (if is_str (us_type params) "raw" then
         contentType ← metadata_content_type (us_metadata params);
         mret (Some (Utils.utf8Bytes (us_data params)), contentType)
       else if is_str (us_type params) "data_url" then
         decode_data_url (us_data params)
       else mret (None, None));
    match fileData with
    | None => throw (Js.new_Error "Unbale to generate file data")
    | Some fileData =>
        let file := Http.mkFile fileData "untitled" contentType in
        let formData : Http.FormData := [("file", file)] in
        mret (us_path params, formData, us_onUploadProgress params)
    end.

Definition uploadStringToStorage (ref : loc) : Async UploadResponse :=
  '(path, formData, onUploadProgress) ← stringFormData ref;
  res ← HasuraStorageApi.uploadFile remote self path formData
          onUploadProgress;
  mret (checked_upload res).

Definition deleteFile (path : string) : Async DeleteResponse :=
  if negb (Js.startsWith path "/") then mret (mkDeleteResponse path_fault)
  else
    res ← HasuraStorageApi.deleteFile remote self path;
    if Js.truthy (delete_error res)
    then mret (mkDeleteResponse (delete_error res))
    else mret (mkDeleteResponse Js.Null).

(** [const { metadata, error } = await this.api.getMetadata(path)]
    destructures the response body. *)
Definition getS3Metadata (path : string) : Async MetadataResponse :=
  if negb (Js.startsWith path "/")
  then mret (mkMetadataResponse Js.Null path_fault)
  else
    body ← HasuraStorageApi.getMetadata remote self path;
    match Js.get body "metadata", Js.get body "error" with
    | Some metadata, Some error =>
        if Js.truthy error then mret (mkMetadataResponse Js.Null error)
        else mret (mkMetadataResponse metadata Js.Null)
    | _, _ => throw type_error
    end.

Definition setAccessToken (token : option string) : Async unit :=
  HasuraStorageApi.setAccessToken token.

End Client.
End HasuraStorageClient.

(** ** Observations on a run *)

(** What a computation started in [st] completes with. *)
Definition result {A : Type} (c : Async A) (st : State) : Completion A :=
  (c st).1.

(** The state it leaves. *)
Definition final {A : Type} (c : Async A) (st : State) : State :=
  (c st).2.

(** The requests it hands to the HTTP client: what the run appends to the
    record.  "No network call" is [issued c st = []]. *)
Definition issued {A : Type} (c : Async A) (st : State) : list Http.Request :=
  drop (length (sent st)) (sent (final c st)).

(** The state after [req] was handed to the HTTP client. *)
Definition record (req : Http.Request) (st : State) : State :=
  mkState (accessToken st) (sent st ++ [req]) (objects st).

(** Exactly one of the value and the error of a result is non-null. *)
Definition exactly_one_non_null (value error : Js.value) : bool :=
  xorb (negb (Js.is_null value)) (negb (Js.is_null error)).

(** The [Authorization] header [generateAuthHeaders] builds. *)
Definition auth_headers (token : option string) : option Http.Headers :=
  if negb (Js.truthy_str token) then None
  else Some {[ "Authorization" := "Bearer " +:+ default "" token ]}.

(** [params] with the default [type] written into it. *)
Definition with_raw_type (params : StorageUploadString) : StorageUploadString :=
  mkStorageUploadString (us_path params) (us_data params) (Some "raw")
    (us_metadata params) (us_onUploadProgress params).

(** The request each adapter method builds, as a function of the
    constructor arguments, the current token and the method's arguments. *)
Module Wire.
Section Wire.

Variable self : Options.
Variable token : option string.

Definition request (method : Http.Method) (url : string)
    (data : option Http.FormData) (headers : Http.Headers)
    (onUploadProgress : option Http.Callback) : Http.Request :=
  Http.mkRequest method (HasuraStorageApi.baseURL self) 10000 url data
    headers onUploadProgress.

Definition upload (params : ApiUploadParams) : Http.Request :=
  request Http.POST "/files" (Some (api_file params))
    (Http.spread [Some (HasuraStorageApi.generateUploadHeaders params);
                  auth_headers token]) None.

Definition getPresignedUrl (fileId : string) : Http.Request :=
  request Http.GET ("/files/" +:+ fileId +:+ "/presignedurl") None
    (Http.spread [auth_headers token]) None.

Definition delete (fileId : string) : Http.Request :=
  request Http.DELETE ("/files/" +:+ fileId) None
    (Http.spread [auth_headers token]) None.

Definition uploadFile (path : string) (formData : Http.FormData)
    (onUploadProgress : option Http.Callback) : Http.Request :=
  request Http.POST ("/o" +:+ path) (Some formData)
    (Http.spread [Some {[ "Content-Type" := "multipart/form-data" ]};
                  auth_headers token]) onUploadProgress.

Definition deleteFile (path : string) : Http.Request :=
  request Http.DELETE ("/o" +:+ path) None
    (Http.spread [auth_headers token]) None.

Definition getMetadata (path : string) : Http.Request :=
  request Http.GET ("/m" +:+ path) None (Http.spread [auth_headers token]) None.

End Wire.
End Wire.

(** The run of [c] from [st] makes exactly one remote call, and the
    request it carries satisfies [P]. *)
Definition issues_one {A : Type} (c : Async A) (st : State)
    (P : Http.Request -> Prop) : Prop :=
  exists req, issued c st = [req] /\ P req.

(** The one remote call of the run ends with the HTTP client throwing [e]. *)
Definition transport_throws (remote : Http.Request -> Http.Outcome)
    {A : Type} (c : Async A) (st : State) (e : Js.value) : Prop :=
  issues_one c st (fun req => remote req = Http.Failure e).

(** [P] holds of the request of every adapter method, whatever its
    arguments, when the method is called in state [st]. *)
Definition every_adapter_request (remote : Http.Request -> Http.Outcome)
    (self : Options) (st : State) (P : Http.Request -> Prop) : Prop :=
  (forall params, issues_one (HasuraStorageApi.upload remote self params) st P)
  /\ (forall fileId,
        issues_one (HasuraStorageApi.getPresignedUrl remote self fileId) st P)
  /\ (forall fileId, issues_one (HasuraStorageApi.delete remote self fileId) st P)
  /\ (forall path formData cb,
        issues_one (HasuraStorageApi.uploadFile remote self path formData cb) st P)
  /\ (forall path, issues_one (HasuraStorageApi.deleteFile remote self path) st P)
  /\ (forall path, issues_one (HasuraStorageApi.getMetadata remote self path) st P).

(** The value of the [Authorization] header of a request, if it has one. *)
Definition authorization (req : Http.Request) : option string :=
  Http.headers req !! "Authorization".

(** Concrete instances on which the statements below are exercised. *)
Module Demo.

Definition self : Options := mkOptions "https://storage.example.com" None.

Definition tenant : Options :=
  mkOptions "https://storage.example.com" (Some "t1").

(** No token, nothing sent yet, no parameter object. *)
Definition idle : State := mkState None [] ∅.

Definition signed_in : State := mkState (Some "secret") [] ∅.

(** A service that answers every call with a null body. *)
Definition null_body : Http.Request -> Http.Outcome :=
  fun _ => Http.Response Js.Null.

(** A service that answers every call with a metadata object. *)
Definition stored : Http.Request -> Http.Outcome :=
  fun _ => Http.Response (Js.Object {[ "id" := Js.Str "f1" ]}).

(** A transport on which every call fails. *)
Definition network_error : Js.value := Js.new_Error "Network Error".

Definition down : Http.Request -> Http.Outcome :=
  fun _ => Http.Failure network_error.

Definition codec_fault : Js.value := Js.new_Error "Invalid character found".

Definition hello : Http.File :=
  Http.mkFile (Utils.utf8Bytes "Hello") "hello.txt" (Some "text/plain").

Definition unnamed_upload : ApiUploadParams :=
  mkApiUploadParams [("file", hello)] None None None.

Definition empty_bucket_upload : ApiUploadParams :=
  mkApiUploadParams [("file", hello)] (Some "") None None.

Definition bucket_upload : ApiUploadParams :=
  mkApiUploadParams [("file", hello)] (Some "photos") None None.

(** A state in which the caller holds one parameter object, at address 0. *)
Definition holding (params : StorageUploadString) : State :=
  mkState None [] {[ 0%nat := params ]}.

Definition not_a_data_url : StorageUploadString :=
  mkStorageUploadString "/notes.txt" "not-a-data-url" (Some "data_url") None None.

Definition base64_hello : StorageUploadString :=
  mkStorageUploadString "/hello.txt" "data:text/plain;base64,SGVsbG8="
    (Some "data_url") None None.

Definition percent_hello : StorageUploadString :=
  mkStorageUploadString "/hello.txt" "data:text/plain,Hello%20World"
    (Some "data_url") None None.

(** A parameter object whose [type] was left out. *)
Definition untyped : StorageUploadString :=
  mkStorageUploadString "/notes.txt" "Hello" None None None.

(** A raw upload whose metadata has an own entry named [hasOwnProperty]. *)
Definition shadowed : StorageUploadString :=
  mkStorageUploadString "/notes.txt" "Hello" (Some "raw")
    (Some {[ "hasOwnProperty" := "x"; "content-type" := "text/plain" ]}) None.


End Demo.

(** A text without a comma, as the class [[^,]] of the pattern reads it. *)
Definition comma_free (s : string) : Prop := Js.indexOf s "," = -1.

(** The one remote call of the run is answered with the body [body]. *)
Definition transport_answers (remote : Http.Request -> Http.Outcome)
    {A : Type} (c : Async A) (st : State) (body : Js.value) : Prop :=
  issues_one c st (fun req => remote req = Http.Response body).

(** The run touches neither the token nor the caller's objects, and hands
    at most one request to the HTTP client, after those already sent. *)
Definition only_sends {A : Type} (c : Async A) (st : State) : Prop :=
  accessToken (final c st) = accessToken st
  /\ objects (final c st) = objects st
  /\ exists reqs,
       sent (final c st) = sent st ++ reqs /\ (length reqs <= 1)%nat.

(** The names of the headers of a request. *)
Definition header_names (req : Http.Request) : gset string :=
  dom (Http.headers req).

(** The address a request is sent to: the relative url after the base. *)
Definition address (req : Http.Request) : string :=
  Http.baseURL req +:+ Http.url req.

(** [params] with another [metadata] field. *)
Definition with_metadata (metadata : option (gmap string string))
    (params : StorageUploadString) : StorageUploadString :=
  mkStorageUploadString (us_path params) (us_data params) (us_type params)
    metadata (us_onUploadProgress params).

(** The state in which the caller's object at [ref] is [params]. *)
Definition with_object (ref : loc) (params : StorageUploadString) (st : State)
  : State :=
  mkState (accessToken st) (sent st) (<[ref := params]> (objects st)).

(** * Properties *)

(** ** The model on small inputs *)

Example base64_of_hello :
  Utils.base64Bytes Utils.BASE64 "SGVsbG8=" = Some (Utils.utf8Bytes "Hello").
Proof. reflexivity. Qed.

Example base64_without_padding :
  Utils.base64Bytes Utils.BASE64 "SGk" = Some (Utils.utf8Bytes "Hi").
Proof. reflexivity. Qed.

Example base64_rejects_other_characters :
  Utils.base64Bytes Utils.BASE64 "SG k" = None.
Proof. reflexivity. Qed.

Example percent_of_hello_world :
  Utils.percentEncodedBytes "Hello%20World" = Some (Utils.utf8Bytes "Hello World").
Proof. reflexivity. Qed.

Example percent_rejects_truncated_escape :
  Utils.percentEncodedBytes "100%" = None.
Proof. reflexivity. Qed.

Example match_with_header :
  Js.match_data_url "data:text/plain;base64,SGVsbG8="
  = Some (Some "text/plain;base64").
Proof. reflexivity. Qed.

Example match_without_header : Js.match_data_url "data:,Hello" = Some None.
Proof. reflexivity. Qed.

Example match_needs_a_comma : Js.match_data_url "data:text/plain" = None.
Proof. reflexivity. Qed.

Example match_is_anchored : Js.match_data_url " data:,Hello" = None.
Proof. reflexivity. Qed.

Example indexOf_absent : Js.indexOf "abc" "," = -1.
Proof. reflexivity. Qed.

Example substring_swaps_and_clamps : Js.substring "abcdef" 9 2 = "cdef".
Proof. reflexivity. Qed.

Example tenant_baseURL :
  HasuraStorageApi.baseURL Demo.tenant
  = "https://storage.example.com/custom/storage/t1".
Proof. reflexivity. Qed.

(** A raw string upload of a caller that left [type] out: one request,
    the text as bytes, no content type, and the metadata of the answer. *)
Example raw_upload_run :
  result
    (HasuraStorageClient.uploadStringToStorage Demo.stored Demo.codec_fault
       Demo.self 0%nat) (Demo.holding Demo.untyped)
  = Returned (mkUploadResponse (Js.Object {[ "id" := Js.Str "f1" ]}) Js.Null)
  /\ Http.data <$>
       issued
         (HasuraStorageClient.uploadStringToStorage Demo.stored Demo.codec_fault
            Demo.self 0%nat) (Demo.holding Demo.untyped)
     = [Some [("file", Http.mkFile (Utils.utf8Bytes "Hello") "untitled" None)]].
Proof. split; reflexivity. Qed.

(** [getS3Metadata] on a body that is not an object cannot destructure. *)
Example metadata_of_null_body_throws :
  result (HasuraStorageClient.getS3Metadata Demo.null_body Demo.self "/a.txt")
    Demo.idle = Thrown type_error.
Proof. reflexivity. Qed.

(** ** Runs of the adapter *)

Section AdapterRuns.

Variable remote : Http.Request -> Http.Outcome.
Variable self : Options.

Lemma generateAuthHeaders_run st :
  HasuraStorageApi.generateAuthHeaders st
  = (Returned (auth_headers (accessToken st)), st).
Proof.
  unfold HasuraStorageApi.generateAuthHeaders, auth_headers, get_accessToken.
  unfold mbind, Async_bind, mret, Async_ret.
  by destruct (Js.truthy_str (accessToken st)).
Qed.

Lemma httpClient_run method url data headers cb st :
  HasuraStorageApi.httpClient remote self method url data headers cb st
  = (match remote (Wire.request self method url data headers cb) with
     | Http.Response body => Returned body
     | Http.Failure reason => Thrown reason
     end,
     record (Wire.request self method url data headers cb) st).
Proof.
  unfold HasuraStorageApi.httpClient, Wire.request, record.
  by destruct (remote _).
Qed.

Lemma upload_run params st :
  HasuraStorageApi.upload remote self params st
  = (Returned
       match remote (Wire.upload self (accessToken st) params) with
       | Http.Response body => mkUploadResponse body Js.Null
       | Http.Failure reason => mkUploadResponse Js.Null reason
       end,
     record (Wire.upload self (accessToken st) params) st).
Proof.
  unfold HasuraStorageApi.upload, try_catch, mbind, Async_bind.
  rewrite generateAuthHeaders_run, httpClient_run.
  unfold Wire.upload. by destruct (remote _).
Qed.

Lemma getPresignedUrl_run fileId st :
  HasuraStorageApi.getPresignedUrl remote self fileId st
  = (Returned
       match remote (Wire.getPresignedUrl self (accessToken st) fileId) with
       | Http.Response body => mkPresignedUrlResponse body Js.Null
       | Http.Failure reason => mkPresignedUrlResponse Js.Null reason
       end,
     record (Wire.getPresignedUrl self (accessToken st) fileId) st).
Proof.
  unfold HasuraStorageApi.getPresignedUrl, try_catch, mbind, Async_bind.
  rewrite generateAuthHeaders_run, httpClient_run.
  unfold Wire.getPresignedUrl. by destruct (remote _).
Qed.

Lemma delete_run fileId st :
  HasuraStorageApi.delete remote self fileId st
  = (Returned
       match remote (Wire.delete self (accessToken st) fileId) with
       | Http.Response _ => mkDeleteResponse Js.Null
       | Http.Failure reason => mkDeleteResponse reason
       end,
     record (Wire.delete self (accessToken st) fileId) st).
Proof.
  unfold HasuraStorageApi.delete, try_catch, mbind, Async_bind.
  rewrite generateAuthHeaders_run, httpClient_run.
  unfold Wire.delete. by destruct (remote _).
Qed.

Lemma uploadFile_run path formData cb st :
  HasuraStorageApi.uploadFile remote self path formData cb st
  = (Returned
       match remote (Wire.uploadFile self (accessToken st) path formData cb) with
       | Http.Response body => mkUploadResponse body Js.Null
       | Http.Failure reason => mkUploadResponse Js.Null reason
       end,
     record (Wire.uploadFile self (accessToken st) path formData cb) st).
Proof.
  unfold HasuraStorageApi.uploadFile, try_catch, mbind, Async_bind.
  rewrite generateAuthHeaders_run, httpClient_run.
  unfold Wire.uploadFile. by destruct (remote _).
Qed.

Lemma deleteFile_run path st :
  HasuraStorageApi.deleteFile remote self path st
  = (Returned
       match remote (Wire.deleteFile self (accessToken st) path) with
       | Http.Response _ => mkDeleteResponse Js.Null
       | Http.Failure reason => mkDeleteResponse reason
       end,
     record (Wire.deleteFile self (accessToken st) path) st).
Proof.
  unfold HasuraStorageApi.deleteFile, try_catch, mbind, Async_bind.
  rewrite generateAuthHeaders_run, httpClient_run.
  unfold Wire.deleteFile. by destruct (remote _).
Qed.

Lemma getMetadata_run path st :
  HasuraStorageApi.getMetadata remote self path st
  = (match remote (Wire.getMetadata self (accessToken st) path) with
     | Http.Response body => Returned body
     | Http.Failure reason => Thrown reason
     end,
     record (Wire.getMetadata self (accessToken st) path) st).
Proof.
  unfold HasuraStorageApi.getMetadata, mbind, Async_bind.
  rewrite generateAuthHeaders_run, httpClient_run.
  unfold Wire.getMetadata. by destruct (remote _).
Qed.

End AdapterRuns.

(** ** Requests issued *)

Lemma issued_record {A : Type} (c : Async A) (st : State) (req : Http.Request) :
  final c st = record req st -> issued c st = [req].
Proof.
  intros H. unfold issued. rewrite H. simpl. apply drop_app_length.
Qed.

Lemma truthy_str_Some (s : string) : Js.truthy_str (Some s) = true <-> s ≠ "".
Proof.
  simpl. destruct (String.eqb_spec s ""); simpl; split; congruence.
Qed.

(** Lookups in the header maps the adapter builds. *)
Ltac header_lookup :=
  repeat first
    [ rewrite lookup_union
    | rewrite lookup_empty
    | rewrite lookup_singleton_eq
    | rewrite lookup_singleton_ne by done
    | rewrite lookup_insert_eq
    | rewrite lookup_insert_ne by done
    | progress simpl ].

Section AdapterRequests.

Variable remote : Http.Request -> Http.Outcome.
Variable self : Options.

(** Every adapter method makes exactly one remote call, with the request
    of [Wire]. *)
Lemma adapter_requests st (P : Http.Request -> Prop) :
  (forall params, P (Wire.upload self (accessToken st) params)) ->
  (forall fileId, P (Wire.getPresignedUrl self (accessToken st) fileId)) ->
  (forall fileId, P (Wire.delete self (accessToken st) fileId)) ->
  (forall path fd cb, P (Wire.uploadFile self (accessToken st) path fd cb)) ->
  (forall path, P (Wire.deleteFile self (accessToken st) path)) ->
  (forall path, P (Wire.getMetadata self (accessToken st) path)) ->
  every_adapter_request remote self st P.
Proof.
  intros H1 H2 H3 H4 H5 H6. unfold every_adapter_request, issues_one.
  repeat split; intros.
  - eexists; split; [apply issued_record; unfold final; by rewrite upload_run | done].
  - eexists; split; [apply issued_record; unfold final; by rewrite getPresignedUrl_run | done].
  - eexists; split; [apply issued_record; unfold final; by rewrite delete_run | done].
  - eexists; split; [apply issued_record; unfold final; by rewrite uploadFile_run | done].
  - eexists; split; [apply issued_record; unfold final; by rewrite deleteFile_run | done].
  - eexists; split; [apply issued_record; unfold final; by rewrite getMetadata_run | done].
Qed.

(** The [Authorization] header of every request [Wire] describes. *)
Lemma wire_authorization token :
  let expected :=
    if Js.truthy_str token then Some ("Bearer " +:+ default "" token) else None in
  (forall params, authorization (Wire.upload self token params) = expected)
  /\ (forall fileId, authorization (Wire.getPresignedUrl self token fileId) = expected)
  /\ (forall fileId, authorization (Wire.delete self token fileId) = expected)
  /\ (forall path fd cb, authorization (Wire.uploadFile self token path fd cb) = expected)
  /\ (forall path, authorization (Wire.deleteFile self token path) = expected)
  /\ (forall path, authorization (Wire.getMetadata self token path) = expected).
Proof.
  unfold authorization, Wire.upload, Wire.getPresignedUrl, Wire.delete,
    Wire.uploadFile, Wire.deleteFile, Wire.getMetadata, Wire.request,
    Http.spread, HasuraStorageApi.generateUploadHeaders, auth_headers.
  simpl.
  repeat split; intros; destruct (Js.truthy_str token); simpl;
    repeat case_match; by header_lookup.
Qed.

End AdapterRequests.

Lemma every_adapter_request_impl remote self st (P Q : Http.Request -> Prop) :
  (forall req, P req -> Q req) ->
  every_adapter_request remote self st P -> every_adapter_request remote self st Q.
Proof.
  intros HPQ (H1 & H2 & H3 & H4 & H5 & H6).
  unfold every_adapter_request, issues_one in *.
  repeat split; intros.
  - destruct (H1 params) as (req & ? & ?); eauto.
  - destruct (H2 fileId) as (req & ? & ?); eauto.
  - destruct (H3 fileId) as (req & ? & ?); eauto.
  - destruct (H4 path formData cb) as (req & ? & ?); eauto.
  - destruct (H5 path) as (req & ? & ?); eauto.
  - destruct (H6 path) as (req & ? & ?); eauto.
Qed.

Lemma every_request_authorization remote self st :
  every_adapter_request remote self st (fun req =>
    authorization req
    = if Js.truthy_str (accessToken st)
      then Some ("Bearer " +:+ default "" (accessToken st)) else None).
Proof.
  destruct (wire_authorization self (accessToken st)) as (W1 & W2 & W3 & W4 & W5 & W6).
  by apply adapter_requests.
Qed.

(** ** The adapter's headers *)

(** C7. Every request of the adapter carries [Authorization: Bearer <token>]
    when a token is set, that is when [accessToken] holds a non-empty
    string, and has no [Authorization] header at all when no token is set;
    whatever the state, an [Authorization] header that is sent has the form
    [Bearer <token>] with a non-empty token; and after a token was set and
    then cleared with [setAccessToken(undefined)], the requests have no
    [Authorization] header. *)
Theorem authorization_header remote self st :
  (forall t, accessToken st = Some t -> t ≠ "" ->
     every_adapter_request remote self st (fun req =>
       authorization req = Some ("Bearer " +:+ t)))
  /\ (accessToken st = None ->
      every_adapter_request remote self st (fun req => authorization req = None))
  /\ every_adapter_request remote self st (fun req =>
       forall v, authorization req = Some v ->
                 exists t, t ≠ "" /\ v = "Bearer " +:+ t)
  /\ (forall t,
        every_adapter_request remote self
          (final (HasuraStorageClient.setAccessToken (Some t)
                  ≫= fun _ => HasuraStorageClient.setAccessToken None) st)
          (fun req => authorization req = None)).
Proof.
  split; [| split; [| split]].
  - intros t Ht Hne.
    eapply every_adapter_request_impl; [| apply every_request_authorization].
    intros req ->. rewrite Ht.
    by rewrite (proj2 (truthy_str_Some t) Hne).
  - intros Ht.
    eapply every_adapter_request_impl; [| apply every_request_authorization].
    intros req ->. by rewrite Ht.
  - eapply every_adapter_request_impl; [| apply every_request_authorization].
    intros req -> v. destruct (accessToken st) as [t|]; [| done].
    destruct (Js.truthy_str (Some t)) eqn:Ht; [| done].
    intros [= <-]. exists t. split; [by apply truthy_str_Some | done].
  - intros t.
    eapply every_adapter_request_impl; [| apply every_request_authorization].
    by intros req ->.
Qed.

Lemma authorization_header_witness :
  every_adapter_request Demo.stored Demo.self Demo.signed_in (fun req =>
    authorization req = Some "Bearer secret")
  /\ every_adapter_request Demo.stored Demo.self Demo.idle (fun req =>
       authorization req = None).
Proof.
  split.
  - apply (proj1 (authorization_header Demo.stored Demo.self Demo.signed_in) "secret");
      [reflexivity | discriminate].
  - apply (proj1 (proj2 (authorization_header Demo.stored Demo.self Demo.idle)));
      reflexivity.
Defined.

Lemma truthy_field (field : option string) (v : string) :
  (if Js.truthy_str field then field else None) = Some v
  <-> field = Some v /\ v ≠ "".
Proof.
  destruct field as [s|]; simpl.
  - destruct (String.eqb_spec s ""); simpl; intuition congruence.
  - intuition congruence.
Qed.

Lemma generateUploadHeaders_lookup params :
  let h := HasuraStorageApi.generateUploadHeaders params in
  h !! "x-nhost-bucket-id"
    = (if Js.truthy_str (api_bucketId params) then api_bucketId params else None)
  /\ h !! "x-nhost-file-id"
     = (if Js.truthy_str (api_id params) then api_id params else None)
  /\ h !! "x-nhost-file-name"
     = (if Js.truthy_str (api_name params) then api_name params else None).
Proof.
  unfold HasuraStorageApi.generateUploadHeaders.
  destruct params as [file [b|] [i|] [n|]]; simpl;
    repeat case_match; by header_lookup.
Qed.

Lemma spread_upload_lookup (h : Http.Headers) token (k : string) :
  k ≠ "Authorization" ->
  Http.spread [Some h; auth_headers token] !! k = h !! k.
Proof.
  intros Hk. unfold Http.spread, auth_headers.
  destruct (Js.truthy_str token); header_lookup; by destruct (h !! k).
Qed.

(** C8, as the code has it. The request of the adapter's [upload] carries
    each of the headers [x-nhost-bucket-id], [x-nhost-file-id] and
    [x-nhost-file-name], with the field's value, exactly when the
    corresponding field ([bucketId], [id], [name]) is present and is not
    the empty string; a field set to the empty string sends no header, as
    an unset field does. *)
Theorem upload_headers_for_non_empty_fields remote self st params :
  issues_one (HasuraStorageApi.upload remote self params) st (fun req =>
    (forall v, Http.headers req !! "x-nhost-bucket-id" = Some v
               <-> api_bucketId params = Some v /\ v ≠ "")
    /\ (forall v, Http.headers req !! "x-nhost-file-id" = Some v
                  <-> api_id params = Some v /\ v ≠ "")
    /\ (forall v, Http.headers req !! "x-nhost-file-name" = Some v
                  <-> api_name params = Some v /\ v ≠ "")).
Proof.
  exists (Wire.upload self (accessToken st) params). split.
  { apply issued_record. unfold final. by rewrite upload_run. }
  destruct (generateUploadHeaders_lookup params) as (Hb & Hi & Hn).
  unfold Wire.upload, Wire.request. simpl.
  rewrite !spread_upload_lookup by done.
  rewrite Hb, Hi, Hn.
  split; [| split]; intros v; apply truthy_field.
Qed.

Lemma upload_headers_for_non_empty_fields_witness :
  issues_one (HasuraStorageApi.upload Demo.stored Demo.self Demo.bucket_upload)
    Demo.idle
    (fun req => Http.headers req !! "x-nhost-bucket-id" = Some "photos").
Proof.
  destruct (upload_headers_for_non_empty_fields Demo.stored Demo.self Demo.idle
              Demo.bucket_upload) as (req & Hreq & Hb & _).
  exists req. split; [exact Hreq |].
  apply Hb. split; [reflexivity | discriminate].
Defined.

(** C8, as stated, fails: with [bucketId] set to the empty string the
    field is present, yet the request has no [x-nhost-bucket-id] header, and
    the headers built are those of a call that leaves [bucketId] unset. *)
Lemma empty_bucket_id_sends_no_header :
  api_bucketId Demo.empty_bucket_upload = Some ""
  /\ issues_one
       (HasuraStorageApi.upload Demo.stored Demo.self Demo.empty_bucket_upload)
       Demo.idle
       (fun req => Http.headers req !! "x-nhost-bucket-id" = None)
  /\ HasuraStorageApi.generateUploadHeaders Demo.empty_bucket_upload
     = HasuraStorageApi.generateUploadHeaders Demo.unnamed_upload.
Proof.
  split; [reflexivity |]. split; [| reflexivity].
  eexists. split; [apply issued_record; unfold final; by rewrite upload_run |].
  reflexivity.
Qed.

(** ** Transport faults at the adapter *)

Lemma issues_one_inv {A : Type} (c : Async A) st req (P : Http.Request -> Prop) :
  final c st = record req st -> issues_one c st P -> P req.
Proof.
  intros Hfin (req' & Hreq & HP).
  rewrite (issued_record c st req Hfin) in Hreq. by injection Hreq as ->.
Qed.

(** C3. When the HTTP client throws [e] during the remote call of an
    adapter method, each of [upload], [getPresignedUrl], [delete],
    [uploadFile] and [deleteFile] returns its result object with a null
    value and [e] as the error, and these five never throw, whatever the
    transport does; [getMetadata] has no handler and throws [e] to its
    caller. *)
Theorem adapter_transport_faults remote self st e :
  (forall params,
     transport_throws remote (HasuraStorageApi.upload remote self params) st e ->
     result (HasuraStorageApi.upload remote self params) st
     = Returned (mkUploadResponse Js.Null e))
  /\ (forall fileId,
        transport_throws remote
          (HasuraStorageApi.getPresignedUrl remote self fileId) st e ->
        result (HasuraStorageApi.getPresignedUrl remote self fileId) st
        = Returned (mkPresignedUrlResponse Js.Null e))
  /\ (forall fileId,
        transport_throws remote (HasuraStorageApi.delete remote self fileId) st e ->
        result (HasuraStorageApi.delete remote self fileId) st
        = Returned (mkDeleteResponse e))
  /\ (forall path formData cb,
        transport_throws remote
          (HasuraStorageApi.uploadFile remote self path formData cb) st e ->
        result (HasuraStorageApi.uploadFile remote self path formData cb) st
        = Returned (mkUploadResponse Js.Null e))
  /\ (forall path,
        transport_throws remote (HasuraStorageApi.deleteFile remote self path) st e ->
        result (HasuraStorageApi.deleteFile remote self path) st
        = Returned (mkDeleteResponse e))
  /\ (forall path,
        transport_throws remote (HasuraStorageApi.getMetadata remote self path) st e ->
        result (HasuraStorageApi.getMetadata remote self path) st = Thrown e)
  /\ (forall params,
        exists r, result (HasuraStorageApi.upload remote self params) st = Returned r)
  /\ (forall fileId,
        exists r, result (HasuraStorageApi.getPresignedUrl remote self fileId) st
                  = Returned r)
  /\ (forall fileId,
        exists r, result (HasuraStorageApi.delete remote self fileId) st = Returned r)
  /\ (forall path formData cb,
        exists r, result (HasuraStorageApi.uploadFile remote self path formData cb) st
                  = Returned r)
  /\ (forall path,
        exists r, result (HasuraStorageApi.deleteFile remote self path) st = Returned r).
Proof.
  unfold transport_throws, result.
  split; [| split; [| split; [| split; [| split; [| split]]]]].
  - intros params H.
    eapply issues_one_inv in H; [| unfold final; by rewrite upload_run].
    rewrite upload_run. simpl. by rewrite H.
  - intros fileId H.
    eapply issues_one_inv in H; [| unfold final; by rewrite getPresignedUrl_run].
    rewrite getPresignedUrl_run. simpl. by rewrite H.
  - intros fileId H.
    eapply issues_one_inv in H; [| unfold final; by rewrite delete_run].
    rewrite delete_run. simpl. by rewrite H.
  - intros path formData cb H.
    eapply issues_one_inv in H; [| unfold final; by rewrite uploadFile_run].
    rewrite uploadFile_run. simpl. by rewrite H.
  - intros path H.
    eapply issues_one_inv in H; [| unfold final; by rewrite deleteFile_run].
    rewrite deleteFile_run. simpl. by rewrite H.
  - intros path H.
    eapply issues_one_inv in H; [| unfold final; by rewrite getMetadata_run].
    rewrite getMetadata_run. simpl. by rewrite H.
  - split; [| split; [| split; [| split]]]; intros.
    + rewrite upload_run. eauto.
    + rewrite getPresignedUrl_run. eauto.
    + rewrite delete_run. eauto.
    + rewrite uploadFile_run. eauto.
    + rewrite deleteFile_run. eauto.
Qed.

Lemma adapter_transport_faults_witness :
  result (HasuraStorageApi.upload Demo.down Demo.self Demo.unnamed_upload) Demo.idle
  = Returned (mkUploadResponse Js.Null Demo.network_error)
  /\ result (HasuraStorageApi.deleteFile Demo.down Demo.self "/a.txt") Demo.idle
     = Returned (mkDeleteResponse Demo.network_error)
  /\ result (HasuraStorageApi.getMetadata Demo.down Demo.self "/a.txt") Demo.idle
     = Thrown Demo.network_error.
Proof.
  pose proof (adapter_transport_faults Demo.down Demo.self Demo.idle
                Demo.network_error) as (Hup & _ & _ & _ & Hdel & Hmeta & _).
  split; [| split].
  - apply Hup. eexists. split; reflexivity.
  - apply Hdel. eexists. split; reflexivity.
  - apply Hmeta. eexists. split; reflexivity.
Defined.

(** ** The direct URL *)

(** C9. [getUrl] is a function from the file id to a string, with no
    state, no remote call and no failure: without a tenant namespace it is
    [{baseUrl}/files/{fileId}], so [{baseUrl}/files/abc] for ["abc"]; with
    the tenant namespace ["t1"] it is ["/custom/storage/t1/o/abc"], and in
    general [/custom/storage/{appId}/o/{fileId}] for a namespace that is
    not the empty string. *)
Theorem getUrl_forms :
  (forall url fileId,
     HasuraStorageClient.getUrl (mkOptions url None) fileId
     = url +:+ "/files/" +:+ fileId)
  /\ (forall url,
        HasuraStorageClient.getUrl (mkOptions url None) "abc"
        = url +:+ "/files/abc")
  /\ (forall url,
        HasuraStorageClient.getUrl (mkOptions url (Some "t1")) "abc"
        = "/custom/storage/t1/o/abc")
  /\ (forall url appId fileId,
        appId ≠ "" ->
        HasuraStorageClient.getUrl (mkOptions url (Some appId)) fileId
        = "/custom/storage/" +:+ appId +:+ "/o/" +:+ fileId).
Proof.
  split; [| split; [| split]]; try reflexivity.
  intros url appId fileId Hne. unfold HasuraStorageClient.getUrl.
  cbn [opt_appId opt_url]. by rewrite (proj2 (truthy_str_Some appId) Hne).
Qed.

Lemma getUrl_forms_witness :
  HasuraStorageClient.getUrl Demo.tenant "abc" = "/custom/storage/t1/o/abc".
Proof.
  apply (proj2 (proj2 (proj2 getUrl_forms)) "https://storage.example.com" "t1" "abc").
  discriminate.
Defined.


(** ** Strings *)

Lemma append_nil (b : string) : "" +:+ b = b.
Proof. reflexivity. Qed.

Lemma append_cons (c : ascii) (a b : string) :
  String c a +:+ b = String c (a +:+ b).
Proof. reflexivity. Qed.

(** [String.append] does not unfold under [simpl]. *)
Ltac string_simpl := rewrite ?append_cons, ?append_nil; simpl.

Lemma length_append (a b : string) :
  String.length (a +:+ b) = (String.length a + String.length b)%nat.
Proof. induction a as [|c a IH]; string_simpl; [done | by rewrite IH]. Qed.

Lemma drop_chars_append (a b : string) :
  Js.drop_chars (String.length a) (a +:+ b) = b.
Proof. induction a as [|c a IH]; string_simpl; done. Qed.

Lemma take_chars_append (a b : string) :
  Js.take_chars (String.length a) (a +:+ b) = a.
Proof.
  induction a as [|c a IH]; string_simpl; [by destruct b | by rewrite IH].
Qed.

Lemma startsWith_empty (s : string) : Js.startsWith s "" = true.
Proof. by destruct s. Qed.

Lemma startsWith_append (p s : string) : Js.startsWith (p +:+ s) p = true.
Proof.
  induction p as [|c p IH]; string_simpl; [by destruct s | by rewrite Ascii.eqb_refl].
Qed.

Lemma startsWith_inv (s p : string) :
  Js.startsWith s p = true -> exists t, s = p +:+ t.
Proof.
  revert s. induction p as [|c p IH]; intros s.
  - intros _. by exists s.
  - destruct s as [|d s]; simpl; [done |].
    destruct (Ascii.eqb_spec c d) as [->|]; [| done].
    intros H. destruct (IH s H) as [t ->]. by exists t.
Qed.

Lemma endsWith_append (a b : string) : Js.endsWith (a +:+ b) b = true.
Proof.
  unfold Js.endsWith. rewrite length_append.
  destruct (Nat.leb_spec (String.length b) (String.length a + String.length b));
    [| lia].
  replace (String.length a + String.length b - String.length b)%nat
    with (String.length a) by lia.
  rewrite drop_chars_append. apply String.eqb_refl.
Qed.

Lemma substring_strip_suffix (a b : string) :
  Js.substring (a +:+ b) 0
    (Z.of_nat (String.length (a +:+ b)) - Z.of_nat (String.length b)) = a.
Proof.
  unfold Js.substring. rewrite length_append.
  replace (Z.of_nat (String.length a + String.length b)
           - Z.of_nat (String.length b)) with (Z.of_nat (String.length a)) by lia.
  rewrite (Z.max_l 0 0), (Z.min_l 0) by lia.
  rewrite (Z.max_r 0 (Z.of_nat (String.length a))) by lia.
  rewrite (Z.min_l (Z.of_nat (String.length a))) by lia.
  rewrite Z.min_l, Z.max_r by lia.
  rewrite Z.sub_0_r, Nat2Z.id. change (Z.to_nat 0) with 0%nat. simpl Js.drop_chars.
  apply take_chars_append.
Qed.

(** [indexOf_at] only shifts the answer of [indexOf]. *)
Lemma indexOf_at_shift (s p : string) (i : Z) :
  (Js.indexOf_at 0 s p = -1 /\ Js.indexOf_at i s p = -1)
  \/ (0 <= Js.indexOf_at 0 s p
      /\ Js.indexOf_at i s p = i + Js.indexOf_at 0 s p).
Proof.
  revert i. induction s as [|c s IH]; intros i.
  - destruct p; simpl; [right | left]; lia.
  - cbn [Js.indexOf_at]. destruct (Js.startsWith (String c s) p).
    + right. lia.
    + destruct (IH (i + 1)) as [[H0 Hi]|[H0 Hi]],
        (IH (0 + 1)) as [[H0' H1]|[H0' H1]];
        first [left; lia | right; lia].
Qed.

Lemma comma_free_cons (c : ascii) (s : string) :
  comma_free (String c s) <-> c ≠ ","%char /\ comma_free s.
Proof.
  unfold comma_free, Js.indexOf. cbn [Js.indexOf_at Js.startsWith].
  destruct (Ascii.eqb_spec ","%char c) as [<-|Hne].
  - replace (Js.startsWith s "") with true by (by destruct s).
    split; [discriminate | intros [? _]; done].
  - destruct (indexOf_at_shift s "," (0 + 1)) as [[H0 H1]|[H0 H1]].
    + split; [intros _; split; congruence | done].
    + split; [lia | intros [_ ?]; lia].
Qed.

Lemma comma_free_empty : comma_free "".
Proof. reflexivity. Qed.

Lemma comma_free_append (a b : string) :
  comma_free a -> comma_free b -> comma_free (a +:+ b).
Proof.
  intros Ha Hb. induction a as [|c a IH]; string_simpl; [done |].
  apply comma_free_cons in Ha as [Hc Ha]. apply comma_free_cons. auto.
Qed.

Lemma until_comma_append (h rest : string) :
  comma_free h -> Js.until_comma (h +:+ "," +:+ rest) = Some h.
Proof.
  intros Hh. change ("," +:+ rest) with (String ","%char rest).
  induction h as [|c h IH]; string_simpl; [done |].
  apply comma_free_cons in Hh as [Hc Hh].
  destruct (Ascii.eqb_spec c ","%char); [done |]. by rewrite IH.
Qed.

Lemma until_comma_inv (s h : string) :
  Js.until_comma s = Some h ->
  comma_free h /\ exists rest, s = h +:+ "," +:+ rest.
Proof.
  revert h. induction s as [|c s IH]; intros h; simpl; [done |].
  destruct (Ascii.eqb_spec c ","%char) as [->|Hne].
  - intros [= <-]. split; [apply comma_free_empty | by exists s].
  - destruct (Js.until_comma s) as [h'|]; [| done]. simpl. intros [= <-].
    destruct (IH h' eq_refl) as [Hfree [rest ->]].
    split; [by apply comma_free_cons | by exists rest].
Qed.

Lemma indexOf_first_comma (h rest : string) :
  comma_free h ->
  Js.indexOf (h +:+ "," +:+ rest) "," = Z.of_nat (String.length h).
Proof.
  intros Hh. unfold Js.indexOf. change ("," +:+ rest) with (String ","%char rest).
  induction h as [|c h IH].
  { rewrite append_nil. cbn [Js.indexOf_at Js.startsWith].
    by rewrite Ascii.eqb_refl, startsWith_empty. }
  apply comma_free_cons in Hh as [Hc Hh]. rewrite append_cons.
  cbn [Js.indexOf_at Js.startsWith String.length].
  destruct (Ascii.eqb_spec ","%char c) as [<-|_]; [done |].
  destruct (indexOf_at_shift (h +:+ String ","%char rest) "," (0 + 1))
    as [[H0 H1]|[H0 H1]]; rewrite IH in * by done; lia.
Qed.

(** The pattern [/^data:([^,]+)?,/] matches exactly the texts
    [data:<header>,<rest>] with a comma-free header, and group 1 is the
    header when it is not empty. *)
Lemma match_data_url_Some (s : string) (group1 : option string) :
  Js.match_data_url s = Some group1
  <-> exists header rest,
        s = "data:" +:+ header +:+ "," +:+ rest
        /\ comma_free header
        /\ group1 = (if String.eqb header "" then None else Some header).
Proof.
  unfold Js.match_data_url. split.
  - destruct (Js.startsWith s "data:") eqn:Hs; [| done].
    apply startsWith_inv in Hs as [t ->].
    change (Js.drop_chars 5 ("data:" +:+ t)) with t.
    destruct (Js.until_comma t) as [h|] eqn:Hh; [| done].
    apply until_comma_inv in Hh as [Hfree [rest ->]].
    intros H. exists h, rest. split; [done |]. split; [done |].
    destruct h; by injection H as <-.
  - intros (header & rest & -> & Hfree & ->).
    rewrite startsWith_append.
    change (Js.drop_chars 5 ("data:" +:+ header +:+ "," +:+ rest))
      with (header +:+ "," +:+ rest).
    rewrite until_comma_append by done. by destruct header.
Qed.

Lemma match_data_url_None (s : string) :
  Js.match_data_url s = None
  <-> forall header rest, s ≠ "data:" +:+ header +:+ "," +:+ rest.
Proof.
  split.
  - intros Hnone header rest ->.
    unfold Js.match_data_url in Hnone. rewrite startsWith_append in Hnone.
    change (Js.drop_chars 5 ("data:" +:+ header +:+ "," +:+ rest))
      with (header +:+ "," +:+ rest) in Hnone.
    destruct (Js.until_comma (header +:+ "," +:+ rest)) as [h|] eqn:Hh.
    + by destruct h.
    + clear Hnone. change ("," +:+ rest) with (String ","%char rest) in Hh.
      induction header as [|c header IH];
        rewrite ?append_cons, ?append_nil in Hh; simpl in Hh; [done |].
      destruct (Ascii.eqb c ","%char); [done |].
      destruct (Js.until_comma (header +:+ String ","%char rest)); [done | auto].
  - intros Hno. destruct (Js.match_data_url s) as [g|] eqn:Hm; [| done].
    apply match_data_url_Some in Hm as (header & rest & -> & _).
    by destruct (Hno header rest).
Qed.

(** ** Runs of the facade *)

Lemma truthy_not_null (v : Js.value) : Js.truthy v = true -> Js.is_null v = false.
Proof. by destruct v. Qed.

Lemma checked_upload_empty (res : UploadResponse) :
  upload_error res = Js.Null ->
  Js.truthy (fileMetadata res) = false ->
  HasuraStorageClient.checked_upload res
  = mkUploadResponse Js.Null (Js.new_Error "Invalid file returned").
Proof.
  intros He Hm. unfold HasuraStorageClient.checked_upload. by rewrite He, Hm.
Qed.

Lemma checked_upload_exactly_one (res : UploadResponse) :
  exactly_one_non_null
    (fileMetadata (HasuraStorageClient.checked_upload res))
    (upload_error (HasuraStorageClient.checked_upload res)) = true.
Proof.
  unfold HasuraStorageClient.checked_upload, exactly_one_non_null.
  destruct (Js.truthy (upload_error res)) eqn:He; simpl.
  - by rewrite (truthy_not_null _ He).
  - destruct (Js.truthy (fileMetadata res)) eqn:Hm; simpl; [| done].
    by rewrite (truthy_not_null _ Hm).
Qed.

Section FacadeRuns.

Variable remote : Http.Request -> Http.Outcome.
Variable codecFault : Js.value.
Variable self : Options.

Lemma client_upload_run params st :
  HasuraStorageClient.upload remote self params st
  = let req :=
      Wire.upload self (accessToken st)
        (mkApiUploadParams [("file", up_file params)] (up_bucketId params)
           (up_id params) (up_name params)) in
    (Returned
       (HasuraStorageClient.checked_upload
          match remote req with
          | Http.Response body => mkUploadResponse body Js.Null
          | Http.Failure reason => mkUploadResponse Js.Null reason
          end),
     record req st).
Proof.
  unfold HasuraStorageClient.upload, mbind, Async_bind. by rewrite upload_run.
Qed.


Lemma uploadFileToStorage_run params st :
  Js.startsWith (uf_path params) "/" = true ->
  HasuraStorageClient.uploadFileToStorage remote self params st
  = let req :=
      Wire.uploadFile self (accessToken st) (uf_path params)
        [("file", uf_file params)] (uf_onUploadProgress params) in
    (Returned
       (HasuraStorageClient.checked_upload
          match remote req with
          | Http.Response body => mkUploadResponse body Js.Null
          | Http.Failure reason => mkUploadResponse Js.Null reason
          end),
     record req st).
Proof.
  intros Hp. unfold HasuraStorageClient.uploadFileToStorage, mbind, Async_bind.
  rewrite Hp. simpl. by rewrite uploadFile_run.
Qed.

Lemma uploadStringToStorage_run ref st :
  HasuraStorageClient.uploadStringToStorage remote codecFault self ref st
  = match HasuraStorageClient.stringFormData codecFault ref st with
    | (Returned (path, formData, cb), st1) =>
        let req := Wire.uploadFile self (accessToken st1) path formData cb in
        (Returned
           (HasuraStorageClient.checked_upload
              match remote req with
              | Http.Response body => mkUploadResponse body Js.Null
              | Http.Failure reason => mkUploadResponse Js.Null reason
              end),
         record req st1)
    | (Thrown e, st1) => (Thrown e, st1)
    end.
Proof.
  unfold HasuraStorageClient.uploadStringToStorage, mbind, Async_bind.
  destruct (HasuraStorageClient.stringFormData codecFault ref st)
    as [[[[path formData] cb]|e] st1]; [| done].
  by rewrite uploadFile_run.
Qed.

Lemma client_deleteFile_run path st :
  Js.startsWith path "/" = true ->
  final (HasuraStorageClient.deleteFile remote self path) st
  = record (Wire.deleteFile self (accessToken st) path) st.
Proof.
  intros Hp. unfold final, HasuraStorageClient.deleteFile, mbind, Async_bind.
  rewrite Hp. simpl. rewrite deleteFile_run.
  by destruct (remote _) as [body|reason]; simpl; [| destruct (Js.truthy reason)].
Qed.

Lemma client_getS3Metadata_run path st :
  Js.startsWith path "/" = true ->
  final (HasuraStorageClient.getS3Metadata remote self path) st
  = record (Wire.getMetadata self (accessToken st) path) st.
Proof.
  intros Hp. unfold final, HasuraStorageClient.getS3Metadata, mbind, Async_bind.
  rewrite Hp. simpl. rewrite getMetadata_run.
  destruct (remote _) as [body|reason]; [| done].
  destruct (Js.get body "metadata"), (Js.get body "error") as [error|];
    try done. by destruct (Js.truthy error).
Qed.

End FacadeRuns.

(** ** Path validation *)

(** C1, as the code has it. For a path that does not start with [/],
    [deleteFile] and [getS3Metadata] return a result whose error is the
    validation fault, [uploadFileToStorage] throws that fault instead of
    returning it, and none of the three makes a remote call. For a path
    that starts with [/], each of the three delegates to the adapter: it
    makes exactly the one remote call of the adapter method it wraps. *)
Theorem path_validation remote self st :
  (forall params,
     Js.startsWith (uf_path params) "/" = false ->
     result (HasuraStorageClient.uploadFileToStorage remote self params) st
     = Thrown (Js.new_Error "`path` must start with `/`")
     /\ issued (HasuraStorageClient.uploadFileToStorage remote self params) st = [])
  /\ (forall path,
        Js.startsWith path "/" = false ->
        result (HasuraStorageClient.deleteFile remote self path) st
        = Returned (mkDeleteResponse (Js.new_Error "`path` must start with `/`"))
        /\ issued (HasuraStorageClient.deleteFile remote self path) st = [])
  /\ (forall path,
        Js.startsWith path "/" = false ->
        result (HasuraStorageClient.getS3Metadata remote self path) st
        = Returned
            (mkMetadataResponse Js.Null
               (Js.new_Error "`path` must start with `/`"))
        /\ issued (HasuraStorageClient.getS3Metadata remote self path) st = [])
  /\ (forall params,
        Js.startsWith (uf_path params) "/" = true ->
        issued (HasuraStorageClient.uploadFileToStorage remote self params) st
        = issued
            (HasuraStorageApi.uploadFile remote self (uf_path params)
               [("file", uf_file params)] (uf_onUploadProgress params)) st
        /\ issues_one
             (HasuraStorageClient.uploadFileToStorage remote self params) st
             (fun req => Http.method req = Http.POST
                         /\ Http.url req = "/o" +:+ uf_path params))
  /\ (forall path,
        Js.startsWith path "/" = true ->
        issued (HasuraStorageClient.deleteFile remote self path) st
        = issued (HasuraStorageApi.deleteFile remote self path) st
        /\ issues_one (HasuraStorageClient.deleteFile remote self path) st
             (fun req => Http.method req = Http.DELETE
                         /\ Http.url req = "/o" +:+ path))
  /\ (forall path,
        Js.startsWith path "/" = true ->
        issued (HasuraStorageClient.getS3Metadata remote self path) st
        = issued (HasuraStorageApi.getMetadata remote self path) st
        /\ issues_one (HasuraStorageClient.getS3Metadata remote self path) st
             (fun req => Http.method req = Http.GET
                         /\ Http.url req = "/m" +:+ path)).
Proof.
  split; [| split; [| split; [| split; [| split]]]].
  - intros params Hp.
    unfold result, issued, final, HasuraStorageClient.uploadFileToStorage.
    rewrite Hp. simpl. split; [done | apply drop_all].
  - intros path Hp.
    unfold result, issued, final, HasuraStorageClient.deleteFile.
    rewrite Hp. simpl. split; [done | apply drop_all].
  - intros path Hp.
    unfold result, issued, final, HasuraStorageClient.getS3Metadata.
    rewrite Hp. simpl. split; [done | apply drop_all].
  - intros params Hp.
    assert (issued (HasuraStorageClient.uploadFileToStorage remote self params) st
            = [Wire.uploadFile self (accessToken st) (uf_path params)
                 [("file", uf_file params)] (uf_onUploadProgress params)]) as Hi.
    { apply issued_record. unfold final. by rewrite uploadFileToStorage_run. }
    split.
    + rewrite Hi. symmetry. apply issued_record. unfold final.
      by rewrite uploadFile_run.
    + eexists. split; [exact Hi | done].
  - intros path Hp.
    assert (issued (HasuraStorageClient.deleteFile remote self path) st
            = [Wire.deleteFile self (accessToken st) path]) as Hi.
    { apply issued_record. by apply client_deleteFile_run. }
    split.
    + rewrite Hi. symmetry. apply issued_record. unfold final.
      by rewrite deleteFile_run.
    + eexists. split; [exact Hi | done].
  - intros path Hp.
    assert (issued (HasuraStorageClient.getS3Metadata remote self path) st
            = [Wire.getMetadata self (accessToken st) path]) as Hi.
    { apply issued_record. by apply client_getS3Metadata_run. }
    split.
    + rewrite Hi. symmetry. apply issued_record. unfold final.
      by rewrite getMetadata_run.
    + eexists. split; [exact Hi | done].
Qed.

Lemma path_validation_witness :
  (result
     (HasuraStorageClient.uploadFileToStorage Demo.stored Demo.self
        (mkStorageUploadFile "a.txt" Demo.hello None)) Demo.idle
   = Thrown (Js.new_Error "`path` must start with `/`")
   /\ issued
        (HasuraStorageClient.uploadFileToStorage Demo.stored Demo.self
           (mkStorageUploadFile "a.txt" Demo.hello None)) Demo.idle = [])
  /\ issues_one (HasuraStorageClient.deleteFile Demo.stored Demo.self "/a.txt")
       Demo.idle
       (fun req => Http.method req = Http.DELETE /\ Http.url req = "/o/a.txt").
Proof.
  pose proof (path_validation Demo.stored Demo.self Demo.idle)
    as (Hup & _ & _ & _ & Hdel & _).
  split.
  - apply (Hup (mkStorageUploadFile "a.txt" Demo.hello None)). reflexivity.
  - apply (Hdel "/a.txt"). reflexivity.
Defined.

(** C1, as stated, fails: for the path ["a.txt"], which does not start
    with [/], [uploadFileToStorage] returns no result at all; it throws. *)
Lemma uploadFileToStorage_throws_path_fault :
  Js.startsWith "a.txt" "/" = false
  /\ ~ exists r,
        result
          (HasuraStorageClient.uploadFileToStorage Demo.stored Demo.self
             (mkStorageUploadFile "a.txt" Demo.hello None)) Demo.idle
        = Returned r.
Proof.
  split; [reflexivity |]. intros [r Hr]. discriminate Hr.
Qed.

(** ** Empty results *)

(** C2. In each of the three upload methods of the facade ([upload],
    [uploadFileToStorage], [uploadStringToStorage]), when the adapter call
    returns a result whose error is null and whose file metadata is null
    (or empty in any other way: falsy), the facade returns
    [{ fileMetadata: null, error: new Error("Invalid file returned") }];
    and no result of these methods has both fields null. *)
Theorem empty_upload_is_a_fault remote codecFault self st res st' :
  upload_error res = Js.Null ->
  Js.truthy (fileMetadata res) = false ->
  let invalid :=
    mkUploadResponse Js.Null (Js.new_Error "Invalid file returned") in
  (forall params,
     HasuraStorageApi.upload remote self
       (mkApiUploadParams [("file", up_file params)] (up_bucketId params)
          (up_id params) (up_name params)) st
     = (Returned res, st') ->
     HasuraStorageClient.upload remote self params st = (Returned invalid, st'))
  /\ (forall params,
        Js.startsWith (uf_path params) "/" = true ->
        HasuraStorageApi.uploadFile remote self (uf_path params)
          [("file", uf_file params)] (uf_onUploadProgress params) st
        = (Returned res, st') ->
        HasuraStorageClient.uploadFileToStorage remote self params st
        = (Returned invalid, st'))
  /\ (forall ref path formData cb st1,
        HasuraStorageClient.stringFormData codecFault ref st
        = (Returned (path, formData, cb), st1) ->
        HasuraStorageApi.uploadFile remote self path formData cb st1
        = (Returned res, st') ->
        HasuraStorageClient.uploadStringToStorage remote codecFault self ref st
        = (Returned invalid, st'))
  /\ (forall params r,
        result (HasuraStorageClient.upload remote self params) st = Returned r ->
        ~ (fileMetadata r = Js.Null /\ upload_error r = Js.Null))
  /\ (forall params r,
        result (HasuraStorageClient.uploadFileToStorage remote self params) st
        = Returned r ->
        ~ (fileMetadata r = Js.Null /\ upload_error r = Js.Null))
  /\ (forall ref r,
        result (HasuraStorageClient.uploadStringToStorage remote codecFault self ref)
          st = Returned r ->
        ~ (fileMetadata r = Js.Null /\ upload_error r = Js.Null)).
Proof.
  intros He Hm invalid.
  assert (forall r0 r, Returned (HasuraStorageClient.checked_upload r0) = Returned r ->
                       ~ (fileMetadata r = Js.Null /\ upload_error r = Js.Null))
    as Hone.
  { intros r0 r [= <-] [Hv Herr].
    pose proof (checked_upload_exactly_one r0) as H.
    rewrite Hv, Herr in H. discriminate H. }
  split; [| split; [| split; [| split; [| split]]]].
  - intros params Hcall.
    unfold HasuraStorageClient.upload, mbind, Async_bind. rewrite Hcall.
    unfold mret, Async_ret. by rewrite checked_upload_empty.
  - intros params Hp Hcall.
    unfold HasuraStorageClient.uploadFileToStorage, mbind, Async_bind.
    rewrite Hp. simpl. rewrite Hcall.
    unfold mret, Async_ret. by rewrite checked_upload_empty.
  - intros ref path formData cb st1 Hform Hcall.
    unfold HasuraStorageClient.uploadStringToStorage, mbind, Async_bind.
    rewrite Hform, Hcall.
    unfold mret, Async_ret. by rewrite checked_upload_empty.
  - intros params r. unfold result. rewrite client_upload_run. apply Hone.
  - intros params r. unfold result.
    destruct (Js.startsWith (uf_path params) "/") eqn:Hp.
    + rewrite uploadFileToStorage_run by done. apply Hone.
    + unfold HasuraStorageClient.uploadFileToStorage. by rewrite Hp.
  - intros ref r. unfold result. rewrite uploadStringToStorage_run.
    destruct (HasuraStorageClient.stringFormData codecFault ref st)
      as [[[[path formData] cb]|e] st1]; [apply Hone | done].
Qed.

Lemma empty_upload_is_a_fault_witness :
  HasuraStorageClient.upload Demo.null_body Demo.self
    (mkStorageUploadParams Demo.hello None None None) Demo.idle
  = (Returned (mkUploadResponse Js.Null (Js.new_Error "Invalid file returned")),
     record (Wire.upload Demo.self None Demo.unnamed_upload) Demo.idle)
  /\ HasuraStorageClient.uploadFileToStorage Demo.null_body Demo.self
       (mkStorageUploadFile "/a.txt" Demo.hello None) Demo.idle
     = (Returned (mkUploadResponse Js.Null (Js.new_Error "Invalid file returned")),
        record (Wire.uploadFile Demo.self None "/a.txt" [("file", Demo.hello)] None)
          Demo.idle)
  /\ result
       (HasuraStorageClient.uploadStringToStorage Demo.null_body Demo.codec_fault
          Demo.self 0%nat) (Demo.holding Demo.untyped)
     = Returned (mkUploadResponse Js.Null (Js.new_Error "Invalid file returned")).
Proof.
  split; [| split].
  - pose proof (empty_upload_is_a_fault Demo.null_body Demo.codec_fault Demo.self
                  Demo.idle (mkUploadResponse Js.Null Js.Null)
                  (record (Wire.upload Demo.self None Demo.unnamed_upload) Demo.idle)
                  eq_refl eq_refl) as (Hup & _).
    apply (Hup (mkStorageUploadParams Demo.hello None None None)). reflexivity.
  - pose proof (empty_upload_is_a_fault Demo.null_body Demo.codec_fault Demo.self
                  Demo.idle (mkUploadResponse Js.Null Js.Null)
                  (record
                     (Wire.uploadFile Demo.self None "/a.txt"
                        [("file", Demo.hello)] None) Demo.idle)
                  eq_refl eq_refl) as (_ & Hfile & _).
    apply (Hfile (mkStorageUploadFile "/a.txt" Demo.hello None)); reflexivity.
  - pose proof (empty_upload_is_a_fault Demo.null_body Demo.codec_fault Demo.self
                  (Demo.holding Demo.untyped) (mkUploadResponse Js.Null Js.Null)
                  (record
                     (Wire.uploadFile Demo.self None "/notes.txt"
                        [("file", Http.mkFile (Utils.utf8Bytes "Hello") "untitled"
                                    None)] None)
                     (mkState None []
                        (<[0%nat := with_raw_type Demo.untyped]>
                           (objects (Demo.holding Demo.untyped)))))
                  eq_refl eq_refl) as (_ & _ & Hstring & _).
    unfold result.
    rewrite (Hstring 0%nat "/notes.txt"
               [("file", Http.mkFile (Utils.utf8Bytes "Hello") "untitled" None)]
               None
               (mkState None []
                  (<[0%nat := with_raw_type Demo.untyped]>
                     (objects (Demo.holding Demo.untyped))))
               eq_refl eq_refl).
    reflexivity.
Defined.

(** ** The string upload *)

Section StringUpload.

Variable remote : Http.Request -> Http.Outcome.
Variable codecFault : Js.value.
Variable self : Options.

(** What [stringFormData] leaves behind: nothing is sent, and the only
    write is the default [type], made once the path check has passed. *)
Lemma stringFormData_final ref params st :
  objects st !! ref = Some params ->
  final (HasuraStorageClient.stringFormData codecFault ref) st
  = if Js.startsWith (us_path params) "/" && negb (Js.truthy_str (us_type params))
    then mkState (accessToken st) (sent st)
           (<[ref := with_raw_type params]> (objects st))
    else st.
Proof.
  intros Hobj.
  unfold final, HasuraStorageClient.stringFormData, mbind, Async_bind, deref.
  rewrite Hobj.
  destruct (Js.startsWith (us_path params) "/"); simpl; [| done].
  destruct (Js.truthy_str (us_type params)) eqn:Htype; simpl.
  - rewrite Hobj.
    destruct (HasuraStorageClient.is_str (us_type params) "raw"); simpl.
    { unfold mbind, Async_bind, HasuraStorageClient.metadata_content_type.
      destruct (us_metadata params) as [m|]; [| done].
      by destruct (m !! "hasOwnProperty"). }
    destruct (HasuraStorageClient.is_str (us_type params) "data_url");
      simpl; [| done].
    unfold HasuraStorageClient.decode_data_url.
    destruct (Js.match_data_url (us_data params)) as [group1|]; [| done].
    destruct (if Js.truthy_str group1 then group1 else None) as [m|].
    + unfold mbind, Async_bind, HasuraStorageClient.decoded.
      destruct (Js.endsWith m ";base64");
        [destruct (Utils.base64Bytes _ _) | destruct (Utils.percentEncodedBytes _)];
        done.
    + unfold mbind, Async_bind, HasuraStorageClient.decoded.
      by destruct (Utils.percentEncodedBytes _).
  - unfold assign. simpl. rewrite lookup_insert_eq. simpl.
    unfold mbind, Async_bind, HasuraStorageClient.metadata_content_type,
      with_raw_type.
    destruct (us_metadata params) as [m|];
      [destruct (m !! "hasOwnProperty") |]; reflexivity.
Qed.

Lemma uploadStringToStorage_objects ref params st :
  objects st !! ref = Some params ->
  objects (final (HasuraStorageClient.uploadStringToStorage remote codecFault
                    self ref) st)
  = if Js.startsWith (us_path params) "/" && negb (Js.truthy_str (us_type params))
    then <[ref := with_raw_type params]> (objects st)
    else objects st.
Proof.
  intros Hobj. pose proof (stringFormData_final ref params st Hobj) as Hfin.
  unfold final in *. rewrite uploadStringToStorage_run.
  destruct (HasuraStorageClient.stringFormData codecFault ref st)
    as [[[[path formData] cb]|e] st1]; simpl in *; subst st1;
    by destruct (_ && _).
Qed.

(** A data URL the pattern rejects: the format fault is thrown before
    anything is sent. *)
Lemma stringFormData_no_match ref params st :
  objects st !! ref = Some params ->
  Js.startsWith (us_path params) "/" = true ->
  us_type params = Some "data_url" ->
  Js.match_data_url (us_data params) = None ->
  HasuraStorageClient.stringFormData codecFault ref st
  = (Thrown HasuraStorageClient.format_fault, st).
Proof.
  intros Hobj Hp Ht Hm.
  unfold HasuraStorageClient.stringFormData, mbind, Async_bind, deref.
  rewrite Hobj, Hp, Ht. simpl. rewrite Hobj, Ht. simpl.
  unfold HasuraStorageClient.decode_data_url. by rewrite Hm.
Qed.

End StringUpload.

(** C6. When [uploadStringToStorage] is given the encoding ["data_url"]
    and a text that the pattern [/^data:([^,]+)?,/] does not match, such as
    ["not-a-data-url"], the method fails (it throws) and makes no remote
    call; the fault thrown is the message
    [Data must be formatted 'data:[<mediatype>][;base64],<data>], this
    whenever the path has passed the check that precedes the decoding
    (a path without the leading [/] fails on that check). *)
Theorem malformed_data_url_is_rejected remote codecFault self st ref params :
  objects st !! ref = Some params ->
  us_type params = Some "data_url" ->
  Js.match_data_url (us_data params) = None ->
  issued (HasuraStorageClient.uploadStringToStorage remote codecFault self ref) st
  = []
  /\ (exists fault,
        result (HasuraStorageClient.uploadStringToStorage remote codecFault self ref)
          st = Thrown fault)
  /\ (Js.startsWith (us_path params) "/" = true ->
      result (HasuraStorageClient.uploadStringToStorage remote codecFault self ref)
        st
      = Thrown
          (Js.Str "Data must be formatted 'data:[<mediatype>][;base64],<data>"))
  /\ Js.match_data_url "not-a-data-url" = None.
Proof.
  intros Hobj Ht Hm.
  destruct (Js.startsWith (us_path params) "/") eqn:Hp.
  - pose proof (stringFormData_no_match codecFault ref params st Hobj Hp Ht Hm)
      as Hrun.
    unfold issued, result, final. rewrite uploadStringToStorage_run, Hrun. simpl.
    split; [apply drop_all |]. split; [by eexists |]. done.
  - assert (HasuraStorageClient.stringFormData codecFault ref st
            = (Thrown HasuraStorageClient.path_fault, st)) as Hrun.
    { unfold HasuraStorageClient.stringFormData, mbind, Async_bind, deref.
      by rewrite Hobj, Hp. }
    unfold issued, result, final. rewrite uploadStringToStorage_run, Hrun. simpl.
    split; [apply drop_all |]. split; [by eexists |]. done.
Qed.

Lemma malformed_data_url_is_rejected_witness :
  issued
    (HasuraStorageClient.uploadStringToStorage Demo.stored Demo.codec_fault
       Demo.self 0%nat) (Demo.holding Demo.not_a_data_url) = []
  /\ result
       (HasuraStorageClient.uploadStringToStorage Demo.stored Demo.codec_fault
          Demo.self 0%nat) (Demo.holding Demo.not_a_data_url)
     = Thrown (Js.Str "Data must be formatted 'data:[<mediatype>][;base64],<data>").
Proof.
  pose proof (malformed_data_url_is_rejected Demo.stored Demo.codec_fault
                Demo.self (Demo.holding Demo.not_a_data_url) 0%nat
                Demo.not_a_data_url eq_refl eq_refl eq_refl)
    as (Hnone & _ & Hfault & _).
  split; [exact Hnone | apply Hfault; reflexivity].
Defined.

(** C10. [uploadStringToStorage] updates the parameter object of its
    caller: when the [type] field is unset (or empty) the method writes
    ["raw"] into that object, once the path has passed the leading-slash
    check and before the data is encoded, so the caller finds
    [type = "raw"] in its object after the call. No other field of the
    object is written, a [type] that was set is left as it is, and no
    other object is touched. *)
Theorem default_type_is_written_to_the_caller remote codecFault self st ref params :
  objects st !! ref = Some params ->
  let st' :=
    final (HasuraStorageClient.uploadStringToStorage remote codecFault self ref)
      st in
  (Js.startsWith (us_path params) "/" = true ->
   Js.truthy_str (us_type params) = false ->
   objects st' !! ref = Some (with_raw_type params)
   /\ us_type (with_raw_type params) = Some "raw")
  /\ (exists after,
        objects st' !! ref = Some after
        /\ us_path after = us_path params
        /\ us_data after = us_data params
        /\ us_metadata after = us_metadata params
        /\ us_onUploadProgress after = us_onUploadProgress params
        /\ (Js.truthy_str (us_type params) = true ->
            us_type after = us_type params))
  /\ (forall other, other ≠ ref -> objects st' !! other = objects st !! other).
Proof.
  intros Hobj st'. subst st'.
  rewrite (uploadStringToStorage_objects remote codecFault self ref params st Hobj).
  split; [| split].
  - intros -> ->. simpl. by rewrite lookup_insert_eq.
  - destruct (Js.startsWith (us_path params) "/"),
      (Js.truthy_str (us_type params)); simpl;
      first [ exists params; by rewrite Hobj
            | exists (with_raw_type params); by rewrite lookup_insert_eq ].
  - intros other Hne. destruct (_ && _); [by rewrite lookup_insert_ne | done].
Qed.

Lemma default_type_is_written_to_the_caller_witness :
  objects
    (final
       (HasuraStorageClient.uploadStringToStorage Demo.stored Demo.codec_fault
          Demo.self 0%nat) (Demo.holding Demo.untyped)) !! 0%nat
  = Some (mkStorageUploadString "/notes.txt" "Hello" (Some "raw") None None).
Proof.
  pose proof (default_type_is_written_to_the_caller Demo.stored Demo.codec_fault
                Demo.self (Demo.holding Demo.untyped) 0%nat Demo.untyped eq_refl)
    as (Hraw & _).
  apply Hraw; reflexivity.
Defined.

(** ** Decoding a data URL *)

Lemma append_assoc (a b c : string) : (a +:+ b) +:+ c = a +:+ b +:+ c.
Proof.
  induction a as [|x a IH]; [done |]. by rewrite !append_cons, IH.
Qed.

Lemma drop_chars_past_comma (h payload : string) :
  Js.drop_chars (S (String.length h)) (h +:+ "," +:+ payload) = payload.
Proof.
  change ("," +:+ payload) with (String ","%char payload).
  induction h as [|c h IH]; [done |]. rewrite append_cons. exact IH.
Qed.

(** [restData] is what follows the first comma. *)
Lemma restData_is_payload (header payload : string) :
  comma_free header ->
  let data := "data:" +:+ header +:+ "," +:+ payload in
  Js.substring_from data (Js.indexOf data "," + 1) = payload.
Proof.
  intros Hfree data. subst data.
  rewrite <- (append_assoc "data:" header ("," +:+ payload)).
  rewrite indexOf_first_comma
    by (apply comma_free_append; [reflexivity | done]).
  unfold Js.substring_from.
  replace (Z.to_nat (Z.of_nat (String.length ("data:" +:+ header)) + 1))
    with (S (String.length ("data:" +:+ header))) by lia.
  apply drop_chars_past_comma.
Qed.

Section DataUrl.

Variable remote : Http.Request -> Http.Outcome.
Variable codecFault : Js.value.
Variable self : Options.

Lemma decode_data_url_run (header payload : string) st :
  comma_free header ->
  HasuraStorageClient.decode_data_url codecFault
    ("data:" +:+ header +:+ "," +:+ payload) st
  = let decoded (isBase64 : bool) :=
      if isBase64 then Utils.base64Bytes Utils.BASE64 payload
      else Utils.percentEncodedBytes payload in
    let isBase64 := negb (String.eqb header "") && Js.endsWith header ";base64" in
    let contentType :=
      if String.eqb header "" then None
      else Some (if Js.endsWith header ";base64"
                 then Js.substring header 0
                        (Z.of_nat (String.length header)
                         - Z.of_nat (String.length ";base64"))
                 else header) in
    match decoded isBase64 with
    | Some bytes => (Returned (Some bytes, contentType), st)
    | None => (Thrown codecFault, st)
    end.
Proof.
  intros Hfree. unfold HasuraStorageClient.decode_data_url.
  assert (Js.match_data_url ("data:" +:+ header +:+ "," +:+ payload)
          = Some (if String.eqb header "" then None else Some header)) as ->.
  { apply match_data_url_Some. by exists header, payload. }
  rewrite (restData_is_payload header payload Hfree).
  destruct (String.eqb_spec header "") as [->|Hne]; simpl.
  - unfold mbind, Async_bind, HasuraStorageClient.decoded.
    by destruct (Utils.percentEncodedBytes payload).
  - rewrite (proj2 (String.eqb_neq header "") Hne). simpl.
    match goal with
    | |- context [HasuraStorageClient.decoded _ ?bytes] => destruct bytes
    end; done.
Qed.

(** The request [uploadStringToStorage] makes for a data URL that decodes
    to [bytes] with content type [contentType]. *)
Lemma data_url_upload ref params st bytes contentType :
  objects st !! ref = Some params ->
  Js.startsWith (us_path params) "/" = true ->
  us_type params = Some "data_url" ->
  HasuraStorageClient.decode_data_url codecFault (us_data params) st
  = (Returned (Some bytes, contentType), st) ->
  issues_one
    (HasuraStorageClient.uploadStringToStorage remote codecFault self ref) st
    (fun req =>
       Http.method req = Http.POST
       /\ Http.url req = "/o" +:+ us_path params
       /\ Http.data req
          = Some [("file", Http.mkFile bytes "untitled" contentType)]).
Proof.
  intros Hobj Hp Ht Hdec.
  assert (HasuraStorageClient.stringFormData codecFault ref st
          = (Returned (us_path params,
                       [("file", Http.mkFile bytes "untitled" contentType)],
                       us_onUploadProgress params), st)) as Hform.
  { unfold HasuraStorageClient.stringFormData, mbind, Async_bind, deref.
    rewrite Hobj, Hp, Ht. simpl. rewrite Hobj, Ht. simpl. by rewrite Hdec. }
  eexists. split.
  - apply issued_record. unfold final.
    by rewrite uploadStringToStorage_run, Hform.
  - done.
Qed.

End DataUrl.

(** C5. For a data URL [data:<header>,<payload>] given to
    [uploadStringToStorage] with the encoding ["data_url"] (the pattern
    [/^data:([^,]+)?,/] splits it at the first comma): when the header ends
    with [;base64], the file uploaded holds the base64-decoded payload and
    its content type is the header without that suffix; otherwise it holds
    the percent-decoded payload and its content type is the header as it
    is (none when the header is empty). So
    ["data:text/plain;base64,SGVsbG8="] uploads the bytes of ["Hello"] as
    [text/plain], and ["data:text/plain,Hello%20World"] the bytes of
    ["Hello World"] as [text/plain]. *)
Theorem data_url_decoding remote codecFault self st ref params :
  objects st !! ref = Some params ->
  Js.startsWith (us_path params) "/" = true ->
  us_type params = Some "data_url" ->
  let uploads (bytes : list byte) (contentType : option string) :=
    issues_one
      (HasuraStorageClient.uploadStringToStorage remote codecFault self ref) st
      (fun req =>
         Http.method req = Http.POST
         /\ Http.url req = "/o" +:+ us_path params
         /\ Http.data req
            = Some [("file", Http.mkFile bytes "untitled" contentType)]) in
  (forall mime payload bytes,
     us_data params = "data:" +:+ mime +:+ ";base64," +:+ payload ->
     comma_free mime ->
     Utils.base64Bytes Utils.BASE64 payload = Some bytes ->
     uploads bytes (Some mime))
  /\ (forall header payload bytes,
        us_data params = "data:" +:+ header +:+ "," +:+ payload ->
        comma_free header ->
        header ≠ "" ->
        Js.endsWith header ";base64" = false ->
        Utils.percentEncodedBytes payload = Some bytes ->
        uploads bytes (Some header))
  /\ (forall payload bytes,
        us_data params = "data:," +:+ payload ->
        Utils.percentEncodedBytes payload = Some bytes ->
        uploads bytes None)
  /\ (us_data params = "data:text/plain;base64,SGVsbG8=" ->
      uploads (Utils.utf8Bytes "Hello") (Some "text/plain"))
  /\ (us_data params = "data:text/plain,Hello%20World" ->
      uploads (Utils.utf8Bytes "Hello World") (Some "text/plain")).
Proof.
  intros Hobj Hp Ht uploads.
  assert (forall mime payload bytes,
            us_data params = "data:" +:+ mime +:+ ";base64," +:+ payload ->
            comma_free mime ->
            Utils.base64Bytes Utils.BASE64 payload = Some bytes ->
            uploads bytes (Some mime)) as Hbase64.
  { intros mime payload bytes Hdata Hfree Hbytes.
    apply (data_url_upload remote codecFault self ref params st); try done.
    assert (us_data params
            = "data:" +:+ (mime +:+ ";base64") +:+ "," +:+ payload) as ->.
    { rewrite Hdata. f_equal. by rewrite append_assoc. }
    rewrite decode_data_url_run
      by (apply comma_free_append; [done | reflexivity]).
    rewrite endsWith_append, substring_strip_suffix.
    replace (String.eqb (mime +:+ ";base64") "") with false
      by (by destruct mime).
    cbv zeta. cbn [negb andb]. by rewrite Hbytes. }
  assert (forall header payload bytes,
            us_data params = "data:" +:+ header +:+ "," +:+ payload ->
            comma_free header ->
            header ≠ "" ->
            Js.endsWith header ";base64" = false ->
            Utils.percentEncodedBytes payload = Some bytes ->
            uploads bytes (Some header)) as Hpercent.
  { intros header payload bytes Hdata Hfree Hne Hends Hbytes.
    apply (data_url_upload remote codecFault self ref params st); try done.
    rewrite Hdata, decode_data_url_run by done.
    rewrite Hends, (proj2 (String.eqb_neq header "") Hne).
    cbv zeta. cbn [negb andb]. by rewrite Hbytes. }
  split; [exact Hbase64 |]. split; [exact Hpercent |].
  split; [| split].
  - intros payload bytes Hdata Hbytes.
    apply (data_url_upload remote codecFault self ref params st); try done.
    rewrite Hdata.
    change ("data:," +:+ payload) with ("data:" +:+ "" +:+ "," +:+ payload).
    rewrite (decode_data_url_run codecFault "" payload st comma_free_empty).
    cbv zeta. cbn [negb andb String.eqb]. by rewrite Hbytes.
  - intros Hdata. by apply (Hbase64 "text/plain" "SGVsbG8=").
  - intros Hdata. by apply (Hpercent "text/plain" "Hello%20World").
Qed.

Lemma data_url_decoding_witness :
  issues_one
    (HasuraStorageClient.uploadStringToStorage Demo.stored Demo.codec_fault
       Demo.self 0%nat) (Demo.holding Demo.base64_hello)
    (fun req =>
       Http.method req = Http.POST
       /\ Http.url req = "/o/hello.txt"
       /\ Http.data req
          = Some [("file",
                   Http.mkFile (Utils.utf8Bytes "Hello") "untitled"
                     (Some "text/plain"))])
  /\ issues_one
       (HasuraStorageClient.uploadStringToStorage Demo.stored Demo.codec_fault
          Demo.self 0%nat) (Demo.holding Demo.percent_hello)
       (fun req =>
          Http.method req = Http.POST
          /\ Http.url req = "/o/hello.txt"
          /\ Http.data req
             = Some [("file",
                      Http.mkFile (Utils.utf8Bytes "Hello World") "untitled"
                        (Some "text/plain"))]).
Proof.
  split.
  - pose proof (data_url_decoding Demo.stored Demo.codec_fault Demo.self
                  (Demo.holding Demo.base64_hello) 0%nat Demo.base64_hello
                  eq_refl eq_refl eq_refl) as (Hbase64 & _).
    apply (Hbase64 "text/plain" "SGVsbG8="); reflexivity.
  - pose proof (data_url_decoding Demo.stored Demo.codec_fault Demo.self
                  (Demo.holding Demo.percent_hello) 0%nat Demo.percent_hello
                  eq_refl eq_refl eq_refl) as (_ & Hpercent & _).
    apply (Hpercent "text/plain" "Hello%20World");
      [reflexivity | reflexivity | discriminate | reflexivity | reflexivity].
Defined.


(** * Further properties of the two classes *)

#[local] Set Warnings "-clear-no-such-hyp".

(** ** The requests of the adapter *)

(** X1. Whatever the service answers, each adapter method makes exactly
    one remote call, on the endpoint of its own: [upload] posts the form
    to [/files], [getPresignedUrl] gets [/files/{fileId}/presignedurl],
    [delete] deletes [/files/{fileId}], [uploadFile] posts the form to
    [/o{path}] with the progress observer it was given, [deleteFile]
    deletes [/o{path}] and [getMetadata] gets [/m{path}]; only the two
    uploads carry a body, and only [uploadFile] an observer. *)
Theorem adapter_endpoints remote self st :
  (forall params,
     issues_one (HasuraStorageApi.upload remote self params) st (fun req =>
       Http.method req = Http.POST /\ Http.url req = "/files"
       /\ Http.data req = Some (api_file params)
       /\ Http.onUploadProgress req = None))
  /\ (forall fileId,
        issues_one (HasuraStorageApi.getPresignedUrl remote self fileId) st
          (fun req =>
             Http.method req = Http.GET
             /\ Http.url req = "/files/" +:+ fileId +:+ "/presignedurl"
             /\ Http.data req = None /\ Http.onUploadProgress req = None))
  /\ (forall fileId,
        issues_one (HasuraStorageApi.delete remote self fileId) st (fun req =>
          Http.method req = Http.DELETE
          /\ Http.url req = "/files/" +:+ fileId
          /\ Http.data req = None /\ Http.onUploadProgress req = None))
  /\ (forall path formData cb,
        issues_one (HasuraStorageApi.uploadFile remote self path formData cb) st
          (fun req =>
             Http.method req = Http.POST /\ Http.url req = "/o" +:+ path
             /\ Http.data req = Some formData
             /\ Http.onUploadProgress req = cb))
  /\ (forall path,
        issues_one (HasuraStorageApi.deleteFile remote self path) st (fun req =>
          Http.method req = Http.DELETE /\ Http.url req = "/o" +:+ path
          /\ Http.data req = None /\ Http.onUploadProgress req = None))
  /\ (forall path,
        issues_one (HasuraStorageApi.getMetadata remote self path) st (fun req =>
          Http.method req = Http.GET /\ Http.url req = "/m" +:+ path
          /\ Http.data req = None /\ Http.onUploadProgress req = None)).
Proof.
  split; [| split; [| split; [| split; [| split]]]]; intros;
    eexists; (split; [apply issued_record; unfold final |]).
  - by rewrite upload_run.
  - done.
  - by rewrite getPresignedUrl_run.
  - done.
  - by rewrite delete_run.
  - done.
  - by rewrite uploadFile_run.
  - done.
  - by rewrite deleteFile_run.
  - done.
  - by rewrite getMetadata_run.
  - done.
Qed.

(** X2. Every request of the adapter goes to the base URL fixed by the
    constructor, with the timeout of 10000 ms: the base is
    [{url}/custom/storage/{appId}] when the tenant namespace is a
    non-empty string, and [{url}] itself when it is null or the empty
    string. *)
Theorem base_url_of_requests remote url appId st :
  every_adapter_request remote (mkOptions url appId) st (fun req =>
    Http.timeout req = 10000
    /\ (forall tenant, appId = Some tenant -> tenant ≠ "" ->
          Http.baseURL req = url +:+ "/custom/storage/" +:+ tenant)
    /\ (appId = None \/ appId = Some "" -> Http.baseURL req = url)).
Proof.
  assert (forall req : Http.Request,
            Http.timeout req = 10000
            /\ Http.baseURL req = HasuraStorageApi.baseURL (mkOptions url appId) ->
            Http.timeout req = 10000
            /\ (forall tenant, appId = Some tenant -> tenant ≠ "" ->
                  Http.baseURL req = url +:+ "/custom/storage/" +:+ tenant)
            /\ (appId = None \/ appId = Some "" -> Http.baseURL req = url)) as Himp.
  { intros req [Ht ->]. split; [done |]. unfold HasuraStorageApi.baseURL.
    cbn [opt_appId opt_url]. split.
    - intros tenant -> Hne. by rewrite (proj2 (truthy_str_Some tenant) Hne).
    - by intros [-> | ->]. }
  eapply every_adapter_request_impl; [exact Himp |].
  by apply adapter_requests.
Qed.

Lemma base_url_of_requests_witness :
  every_adapter_request Demo.stored Demo.tenant Demo.idle (fun req =>
    Http.baseURL req = "https://storage.example.com/custom/storage/t1").
Proof.
  eapply every_adapter_request_impl;
    [| apply (base_url_of_requests Demo.stored "https://storage.example.com"
                (Some "t1") Demo.idle)].
  intros req (_ & Htenant & _). apply (Htenant "t1"); [reflexivity | discriminate].
Defined.

Lemma auth_headers_names (token : option string) :
  dom (default ∅ (auth_headers token) : Http.Headers) ⊆ {[ "Authorization" ]}.
Proof.
  unfold auth_headers. destruct (Js.truthy_str token); simpl.
  - by rewrite dom_singleton_L.
  - rewrite dom_empty_L. set_solver.
Qed.

Lemma generateUploadHeaders_names (params : ApiUploadParams) :
  dom (HasuraStorageApi.generateUploadHeaders params)
  ⊆ {[ "x-nhost-bucket-id"; "x-nhost-file-id"; "x-nhost-file-name" ]}.
Proof.
  unfold HasuraStorageApi.generateUploadHeaders.
  destruct (Js.truthy_str (api_bucketId params)),
    (Js.truthy_str (api_id params)), (Js.truthy_str (api_name params));
    rewrite ?dom_insert_L, dom_empty_L; set_solver.
Qed.

(** X3. The adapter sends no header beyond those it builds: the request
    of [upload] has at most the three [x-nhost-*] headers and
    [Authorization]; the request of [uploadFile] always has
    [Content-Type: multipart/form-data], whatever the token, and besides
    it at most [Authorization]; the requests of the four other methods
    have at most [Authorization]. *)
Theorem adapter_header_names remote self st :
  (forall params,
     issues_one (HasuraStorageApi.upload remote self params) st (fun req =>
       header_names req
       ⊆ {[ "x-nhost-bucket-id"; "x-nhost-file-id"; "x-nhost-file-name";
            "Authorization" ]}))
  /\ (forall path formData cb,
        issues_one (HasuraStorageApi.uploadFile remote self path formData cb) st
          (fun req =>
             Http.headers req !! "Content-Type" = Some "multipart/form-data"
             /\ header_names req ⊆ {[ "Content-Type"; "Authorization" ]}))
  /\ (forall fileId,
        issues_one (HasuraStorageApi.getPresignedUrl remote self fileId) st
          (fun req => header_names req ⊆ {[ "Authorization" ]}))
  /\ (forall fileId,
        issues_one (HasuraStorageApi.delete remote self fileId) st
          (fun req => header_names req ⊆ {[ "Authorization" ]}))
  /\ (forall path,
        issues_one (HasuraStorageApi.deleteFile remote self path) st
          (fun req => header_names req ⊆ {[ "Authorization" ]}))
  /\ (forall path,
        issues_one (HasuraStorageApi.getMetadata remote self path) st
          (fun req => header_names req ⊆ {[ "Authorization" ]})).
Proof.
  pose proof (auth_headers_names (accessToken st)) as Hauth.
  assert (header_names_auth :
            dom (Http.spread [auth_headers (accessToken st)] : Http.Headers)
            ⊆ {[ "Authorization" ]}).
  { unfold Http.spread. simpl. rewrite dom_union_L, dom_empty_L. set_solver. }
  split; [| split; [| split; [| split; [| split]]]]; intros;
    eexists; (split; [apply issued_record; unfold final |]).
  - by rewrite upload_run.
  - pose proof (generateUploadHeaders_names params) as Hup.
    unfold header_names, Wire.upload, Wire.request, Http.spread. simpl.
    rewrite !dom_union_L, dom_empty_L. set_solver.
  - by rewrite uploadFile_run.
  - unfold header_names, Wire.uploadFile, Wire.request, Http.spread. simpl.
    split.
    + unfold auth_headers. destruct (Js.truthy_str (accessToken st));
        by header_lookup.
    + rewrite !dom_union_L, dom_singleton_L, dom_empty_L. set_solver.
  - by rewrite getPresignedUrl_run.
  - exact header_names_auth.
  - by rewrite delete_run.
  - exact header_names_auth.
  - by rewrite deleteFile_run.
  - exact header_names_auth.
  - by rewrite getMetadata_run.
  - exact header_names_auth.
Qed.

(** ** Outcomes of the facade *)

Section FacadeOutcomes.

Variable remote : Http.Request -> Http.Outcome.
Variable self : Options.

Lemma client_getPresignedUrl_outcome fileId st :
  HasuraStorageClient.getPresignedUrl remote self fileId st
  = (Returned
       match remote (Wire.getPresignedUrl self (accessToken st) fileId) with
       | Http.Response body =>
           if Js.truthy body then mkPresignedUrlResponse body Js.Null
           else mkPresignedUrlResponse Js.Null (Js.new_Error "Invalid file id")
       | Http.Failure reason =>
           if Js.truthy reason then mkPresignedUrlResponse Js.Null reason
           else mkPresignedUrlResponse Js.Null (Js.new_Error "Invalid file id")
       end,
     record (Wire.getPresignedUrl self (accessToken st) fileId) st).
Proof.
  unfold HasuraStorageClient.getPresignedUrl, mbind, Async_bind.
  rewrite getPresignedUrl_run.
  destruct (remote _) as [body|reason]; simpl.
  - by destruct (Js.truthy body).
  - by destruct (Js.truthy reason).
Qed.

Lemma client_delete_outcome fileId st :
  HasuraStorageClient.delete remote self fileId st
  = (Returned
       match remote (Wire.delete self (accessToken st) fileId) with
       | Http.Response _ => mkDeleteResponse Js.Null
       | Http.Failure reason =>
           if Js.truthy reason then mkDeleteResponse reason
           else mkDeleteResponse Js.Null
       end,
     record (Wire.delete self (accessToken st) fileId) st).
Proof.
  unfold HasuraStorageClient.delete, mbind, Async_bind. rewrite delete_run.
  destruct (remote _) as [body|reason]; simpl; [done |].
  by destruct (Js.truthy reason).
Qed.

Lemma client_deleteFile_outcome path st :
  Js.startsWith path "/" = true ->
  HasuraStorageClient.deleteFile remote self path st
  = (Returned
       match remote (Wire.deleteFile self (accessToken st) path) with
       | Http.Response _ => mkDeleteResponse Js.Null
       | Http.Failure reason =>
           if Js.truthy reason then mkDeleteResponse reason
           else mkDeleteResponse Js.Null
       end,
     record (Wire.deleteFile self (accessToken st) path) st).
Proof.
  intros Hp. unfold HasuraStorageClient.deleteFile, mbind, Async_bind.
  rewrite Hp. simpl. rewrite deleteFile_run.
  destruct (remote _) as [body|reason]; simpl; [done |].
  by destruct (Js.truthy reason).
Qed.

Lemma client_getS3Metadata_outcome path st :
  Js.startsWith path "/" = true ->
  HasuraStorageClient.getS3Metadata remote self path st
  = (match remote (Wire.getMetadata self (accessToken st) path) with
     | Http.Response body =>
         match Js.get body "metadata", Js.get body "error" with
         | Some metadata, Some error =>
             if Js.truthy error
             then Returned (mkMetadataResponse Js.Null error)
             else Returned (mkMetadataResponse metadata Js.Null)
         | _, _ => Thrown type_error
         end
     | Http.Failure reason => Thrown reason
     end,
     record (Wire.getMetadata self (accessToken st) path) st).
Proof.
  intros Hp. unfold HasuraStorageClient.getS3Metadata, mbind, Async_bind.
  rewrite Hp. simpl. rewrite getMetadata_run.
  destruct (remote _) as [body|reason]; [| done].
  destruct (Js.get body "metadata"), (Js.get body "error") as [error|];
    try done. by destruct (Js.truthy error).
Qed.

End FacadeOutcomes.

(** X4. The facade's [upload], [getPresignedUrl] and [delete] delegate
    without a check of their own: each makes exactly the remote call of
    the adapter method of the same name and leaves the state that call
    leaves, [upload] after wrapping the file into a form with the single
    field [file] and handing [bucketId], [id] and [name] on. *)
Theorem facade_delegates remote self st :
  (forall params,
     final (HasuraStorageClient.upload remote self params) st
     = final
         (HasuraStorageApi.upload remote self
            (mkApiUploadParams [("file", up_file params)] (up_bucketId params)
               (up_id params) (up_name params))) st
     /\ issues_one (HasuraStorageClient.upload remote self params) st (fun req =>
          Http.data req = Some [("file", up_file params)]))
  /\ (forall fileId,
        final (HasuraStorageClient.getPresignedUrl remote self fileId) st
        = final (HasuraStorageApi.getPresignedUrl remote self fileId) st
        /\ issues_one (HasuraStorageClient.getPresignedUrl remote self fileId) st
             (fun req =>
                Http.url req = "/files/" +:+ fileId +:+ "/presignedurl"))
  /\ (forall fileId,
        final (HasuraStorageClient.delete remote self fileId) st
        = final (HasuraStorageApi.delete remote self fileId) st
        /\ issues_one (HasuraStorageClient.delete remote self fileId) st
             (fun req => Http.url req = "/files/" +:+ fileId)).
Proof.
  split; [| split].
  - intros params. split.
    + unfold final. rewrite client_upload_run, upload_run. by simpl.
    + eexists. split;
        [apply issued_record; unfold final; by rewrite client_upload_run | done].
  - intros fileId. split.
    + unfold final. rewrite client_getPresignedUrl_outcome, getPresignedUrl_run.
      by simpl.
    + eexists. split;
        [ apply issued_record; unfold final;
          by rewrite client_getPresignedUrl_outcome
        | done ].
  - intros fileId. split.
    + unfold final. rewrite client_delete_outcome, delete_run. by simpl.
    + eexists. split;
        [apply issued_record; unfold final; by rewrite client_delete_outcome | done].
Qed.

(** X5. [getPresignedUrl] of the facade always returns, and what it
    returns follows the outcome of its one remote call: a truthy body is
    handed back as [presignedUrl] with a null error; an empty body (null,
    [""], 0, false) becomes the fault [Invalid file id]; a truthy value
    thrown by the HTTP client is handed back as the error; and a falsy
    thrown value is reported as [Invalid file id] as well. *)
Theorem presigned_url_outcomes remote self st fileId :
  let run := HasuraStorageClient.getPresignedUrl remote self fileId in
  (forall body,
     transport_answers remote run st body -> Js.truthy body = true ->
     result run st = Returned (mkPresignedUrlResponse body Js.Null))
  /\ (forall body,
        transport_answers remote run st body -> Js.truthy body = false ->
        result run st
        = Returned (mkPresignedUrlResponse Js.Null (Js.new_Error "Invalid file id")))
  /\ (forall e,
        transport_throws remote run st e -> Js.truthy e = true ->
        result run st = Returned (mkPresignedUrlResponse Js.Null e))
  /\ (forall e,
        transport_throws remote run st e -> Js.truthy e = false ->
        result run st
        = Returned (mkPresignedUrlResponse Js.Null (Js.new_Error "Invalid file id")))
  /\ exists r, result run st = Returned r.
Proof.
  intros run. subst run. unfold transport_answers, transport_throws, result.
  assert (final (HasuraStorageClient.getPresignedUrl remote self fileId) st
          = record (Wire.getPresignedUrl self (accessToken st) fileId) st) as Hfin.
  { unfold final. by rewrite client_getPresignedUrl_outcome. }
  rewrite client_getPresignedUrl_outcome. simpl.
  split; [| split; [| split; [| split]]].
  - intros body H Hb. apply (issues_one_inv _ _ _ _ Hfin) in H. by rewrite H, Hb.
  - intros body H Hb. apply (issues_one_inv _ _ _ _ Hfin) in H. by rewrite H, Hb.
  - intros e H He. apply (issues_one_inv _ _ _ _ Hfin) in H. by rewrite H, He.
  - intros e H He. apply (issues_one_inv _ _ _ _ Hfin) in H. by rewrite H, He.
  - eauto.
Qed.

Lemma presigned_url_outcomes_witness :
  result (HasuraStorageClient.getPresignedUrl Demo.null_body Demo.self "f1")
    Demo.idle
  = Returned (mkPresignedUrlResponse Js.Null (Js.new_Error "Invalid file id"))
  /\ result (HasuraStorageClient.getPresignedUrl Demo.down Demo.self "f1")
       Demo.idle
     = Returned (mkPresignedUrlResponse Js.Null Demo.network_error).
Proof.
  split.
  - apply (proj1 (proj2 (presigned_url_outcomes Demo.null_body Demo.self Demo.idle
                           "f1")) Js.Null); [| reflexivity].
    eexists. split; reflexivity.
  - apply (proj1 (proj2 (proj2 (presigned_url_outcomes Demo.down Demo.self
                                  Demo.idle "f1"))) Demo.network_error);
      [| reflexivity].
    eexists. split; reflexivity.
Defined.

(** X6. [delete] and, for a path that starts with [/], [deleteFile] of the
    facade always return: with a null error when the service answers,
    whatever the body, with the thrown value as the error when it is
    truthy, and with a null error again when the value thrown is falsy, in
    which case the failure is not reported. *)
Theorem delete_outcomes remote self st :
  (forall fileId,
     let run := HasuraStorageClient.delete remote self fileId in
     (forall body, transport_answers remote run st body ->
                   result run st = Returned (mkDeleteResponse Js.Null))
     /\ (forall e, transport_throws remote run st e ->
                   result run st
                   = Returned (mkDeleteResponse (if Js.truthy e then e else Js.Null)))
     /\ exists r, result run st = Returned r)
  /\ (forall path,
        Js.startsWith path "/" = true ->
        let run := HasuraStorageClient.deleteFile remote self path in
        (forall body, transport_answers remote run st body ->
                      result run st = Returned (mkDeleteResponse Js.Null))
        /\ (forall e, transport_throws remote run st e ->
                      result run st
                      = Returned
                          (mkDeleteResponse (if Js.truthy e then e else Js.Null)))
        /\ exists r, result run st = Returned r).
Proof.
  split.
  - intros fileId run. subst run.
    unfold transport_answers, transport_throws, result.
    assert (final (HasuraStorageClient.delete remote self fileId) st
            = record (Wire.delete self (accessToken st) fileId) st) as Hfin.
    { unfold final. by rewrite client_delete_outcome. }
    rewrite client_delete_outcome. simpl. split; [| split].
    + intros body H. apply (issues_one_inv _ _ _ _ Hfin) in H. by rewrite H.
    + intros e H. apply (issues_one_inv _ _ _ _ Hfin) in H. rewrite H.
      by destruct (Js.truthy e).
    + eauto.
  - intros path Hp run. subst run.
    unfold transport_answers, transport_throws, result.
    assert (final (HasuraStorageClient.deleteFile remote self path) st
            = record (Wire.deleteFile self (accessToken st) path) st) as Hfin.
    { unfold final. by rewrite client_deleteFile_outcome. }
    rewrite client_deleteFile_outcome by done. simpl. split; [| split].
    + intros body H. apply (issues_one_inv _ _ _ _ Hfin) in H. by rewrite H.
    + intros e H. apply (issues_one_inv _ _ _ _ Hfin) in H. rewrite H.
      by destruct (Js.truthy e).
    + eauto.
Qed.

Lemma delete_outcomes_witness :
  result (HasuraStorageClient.deleteFile Demo.down Demo.self "/a.txt") Demo.idle
  = Returned (mkDeleteResponse Demo.network_error)
  /\ result
       (HasuraStorageClient.delete (fun _ => Http.Failure Js.Undefined) Demo.self
          "f1") Demo.idle
     = Returned (mkDeleteResponse Js.Null).
Proof.
  split.
  - apply (proj1 (proj2 (proj2 (delete_outcomes Demo.down Demo.self Demo.idle)
                           "/a.txt" eq_refl)) Demo.network_error).
    eexists. split; reflexivity.
  - apply (proj1 (proj2 (proj1 (delete_outcomes (fun _ => Http.Failure Js.Undefined)
                                  Demo.self Demo.idle) "f1")) Js.Undefined).
    eexists. split; reflexivity.
Defined.

(** X7. For a path that starts with [/], [getS3Metadata] can fail in two
    ways after its remote call: what the HTTP client throws is thrown on
    to the caller, and a null or undefined body cannot be destructured and
    throws too. For an object body the result follows its [error] field:
    truthy, it is the error and the metadata is null; otherwise the error
    is null and the metadata is the body's [metadata] field, undefined
    when the body has none. *)
Theorem metadata_outcomes remote self st path :
  Js.startsWith path "/" = true ->
  let run := HasuraStorageClient.getS3Metadata remote self path in
  (forall e, transport_throws remote run st e -> result run st = Thrown e)
  /\ (forall body,
        transport_answers remote run st body ->
        body = Js.Null \/ body = Js.Undefined ->
        exists fault, result run st = Thrown fault)
  /\ (forall fields,
        transport_answers remote run st (Js.Object fields) ->
        let error := default Js.Undefined (fields !! "error") in
        let metadata := default Js.Undefined (fields !! "metadata") in
        result run st
        = Returned (if Js.truthy error
                    then mkMetadataResponse Js.Null error
                    else mkMetadataResponse metadata Js.Null)).
Proof.
  intros Hp run. subst run. unfold transport_answers, transport_throws, result.
  assert (final (HasuraStorageClient.getS3Metadata remote self path) st
          = record (Wire.getMetadata self (accessToken st) path) st) as Hfin.
  { by apply client_getS3Metadata_run. }
  rewrite client_getS3Metadata_outcome by done. simpl. split; [| split].
  - intros e H. apply (issues_one_inv _ _ _ _ Hfin) in H. by rewrite H.
  - intros body H Hnull. apply (issues_one_inv _ _ _ _ Hfin) in H. rewrite H.
    destruct Hnull as [-> | ->]; by eexists.
  - intros fields H. apply (issues_one_inv _ _ _ _ Hfin) in H. rewrite H. simpl.
    by destruct (Js.truthy _).
Qed.

Lemma metadata_outcomes_witness :
  result (HasuraStorageClient.getS3Metadata Demo.down Demo.self "/a.txt") Demo.idle
  = Thrown Demo.network_error
  /\ result (HasuraStorageClient.getS3Metadata Demo.stored Demo.self "/a.txt")
       Demo.idle
     = Returned (mkMetadataResponse Js.Undefined Js.Null).
Proof.
  split.
  - apply (proj1 (metadata_outcomes Demo.down Demo.self Demo.idle "/a.txt" eq_refl)
             Demo.network_error).
    eexists. split; reflexivity.
  - pose proof (proj2 (proj2 (metadata_outcomes Demo.stored Demo.self Demo.idle
                                "/a.txt" eq_refl)) {[ "id" := Js.Str "f1" ]}) as H.
    cbv zeta in H. rewrite H; [reflexivity |].
    eexists. split; reflexivity.
Defined.

(** ** The uploads of the facade *)

Section UploadRuns.

Variable remote : Http.Request -> Http.Outcome.
Variable codecFault : Js.value.
Variable self : Options.

(** Building the form data sends nothing and leaves the token alone. *)
Lemma stringFormData_state ref st :
  accessToken (final (HasuraStorageClient.stringFormData codecFault ref) st)
  = accessToken st
  /\ sent (final (HasuraStorageClient.stringFormData codecFault ref) st) = sent st.
Proof.
  destruct (objects st !! ref) as [params|] eqn:Hobj.
  - rewrite (stringFormData_final codecFault ref params st Hobj).
    by destruct (_ && _).
  - unfold final, HasuraStorageClient.stringFormData, mbind, Async_bind, deref.
    by rewrite Hobj.
Qed.

(** The two ways a string upload can go: it throws while building the form
    data, or it hands the form to the adapter and returns. *)
Lemma uploadStringToStorage_cases ref st :
  (exists e st1,
     HasuraStorageClient.stringFormData codecFault ref st = (Thrown e, st1)
     /\ HasuraStorageClient.uploadStringToStorage remote codecFault self ref st
        = (Thrown e, st1)
     /\ sent st1 = sent st /\ accessToken st1 = accessToken st)
  \/ (exists path formData cb st1,
        HasuraStorageClient.stringFormData codecFault ref st
        = (Returned (path, formData, cb), st1)
        /\ sent st1 = sent st /\ accessToken st1 = accessToken st
        /\ HasuraStorageClient.uploadStringToStorage remote codecFault self ref st
           = (Returned
                (HasuraStorageClient.checked_upload
                   match remote
                           (Wire.uploadFile self (accessToken st) path formData cb)
                   with
                   | Http.Response body => mkUploadResponse body Js.Null
                   | Http.Failure reason => mkUploadResponse Js.Null reason
                   end),
              record (Wire.uploadFile self (accessToken st) path formData cb) st1)).
Proof.
  pose proof (stringFormData_state ref st) as [Htok Hsent]. unfold final in *.
  rewrite uploadStringToStorage_run.
  destruct (HasuraStorageClient.stringFormData codecFault ref st)
    as [[[[path formData] cb]|e] st1]; simpl in *.
  - right. exists path, formData, cb, st1. by rewrite Htok.
  - left. by exists e, st1.
Qed.

Lemma uploadStringToStorage_issued ref st path formData cb st1 :
  HasuraStorageClient.stringFormData codecFault ref st
  = (Returned (path, formData, cb), st1) ->
  issued (HasuraStorageClient.uploadStringToStorage remote codecFault self ref) st
  = [Wire.uploadFile self (accessToken st) path formData cb].
Proof.
  intros Hform.
  destruct (uploadStringToStorage_cases ref st)
    as [(e & st2 & Hf & _)|(p & fd & c & st2 & Hf & Hsent & Htok & Hrun)];
    rewrite Hform in Hf; [done |].
  injection Hf as <- <- <- <-.
  unfold issued, final. rewrite Hrun. simpl. rewrite Hsent.
  apply drop_app_length.
Qed.

End UploadRuns.

(** X8. In the three upload methods of the facade, once the remote call
    is made its outcome decides the result: a truthy response body is
    handed back as [fileMetadata] with a null error, and a truthy value
    thrown by the HTTP client is handed back as the error with a null
    [fileMetadata]; none of the three throws in either case. *)
Theorem upload_outcomes remote codecFault self st :
  (forall params,
     let run := HasuraStorageClient.upload remote self params in
     (forall body, transport_answers remote run st body -> Js.truthy body = true ->
                   result run st = Returned (mkUploadResponse body Js.Null))
     /\ (forall e, transport_throws remote run st e -> Js.truthy e = true ->
                   result run st = Returned (mkUploadResponse Js.Null e)))
  /\ (forall params,
        let run := HasuraStorageClient.uploadFileToStorage remote self params in
        (forall body, transport_answers remote run st body -> Js.truthy body = true ->
                      result run st = Returned (mkUploadResponse body Js.Null))
        /\ (forall e, transport_throws remote run st e -> Js.truthy e = true ->
                      result run st = Returned (mkUploadResponse Js.Null e)))
  /\ (forall ref,
        let run :=
          HasuraStorageClient.uploadStringToStorage remote codecFault self ref in
        (forall body, transport_answers remote run st body -> Js.truthy body = true ->
                      result run st = Returned (mkUploadResponse body Js.Null))
        /\ (forall e, transport_throws remote run st e -> Js.truthy e = true ->
                      result run st = Returned (mkUploadResponse Js.Null e))).
Proof.
  assert (forall body, Js.truthy body = true ->
            HasuraStorageClient.checked_upload (mkUploadResponse body Js.Null)
            = mkUploadResponse body Js.Null) as Hok.
  { intros body Hb. unfold HasuraStorageClient.checked_upload. simpl.
    by rewrite Hb. }
  assert (forall e, Js.truthy e = true ->
            HasuraStorageClient.checked_upload (mkUploadResponse Js.Null e)
            = mkUploadResponse Js.Null e) as Hko.
  { intros e He. unfold HasuraStorageClient.checked_upload. simpl.
    by rewrite He. }
  split; [| split].
  - intros params run. subst run.
    unfold transport_answers, transport_throws, result.
    assert (final (HasuraStorageClient.upload remote self params) st
            = record
                (Wire.upload self (accessToken st)
                   (mkApiUploadParams [("file", up_file params)]
                      (up_bucketId params) (up_id params) (up_name params))) st)
      as Hfin.
    { unfold final. by rewrite client_upload_run. }
    rewrite client_upload_run. simpl. split.
    + intros body H Hb. apply (issues_one_inv _ _ _ _ Hfin) in H.
      by rewrite H, Hok.
    + intros e H He. apply (issues_one_inv _ _ _ _ Hfin) in H.
      by rewrite H, Hko.
  - intros params run. subst run.
    unfold transport_answers, transport_throws, result.
    destruct (Js.startsWith (uf_path params) "/") eqn:Hp.
    + assert (final (HasuraStorageClient.uploadFileToStorage remote self params) st
              = record
                  (Wire.uploadFile self (accessToken st) (uf_path params)
                     [("file", uf_file params)] (uf_onUploadProgress params)) st)
        as Hfin.
      { unfold final. by rewrite uploadFileToStorage_run. }
      rewrite uploadFileToStorage_run by done. simpl. split.
      * intros body H Hb. apply (issues_one_inv _ _ _ _ Hfin) in H.
        by rewrite H, Hok.
      * intros e H He. apply (issues_one_inv _ _ _ _ Hfin) in H.
        by rewrite H, Hko.
    + assert (issued (HasuraStorageClient.uploadFileToStorage remote self params) st
              = []) as Hnone.
      { unfold issued, final, HasuraStorageClient.uploadFileToStorage.
        rewrite Hp. apply drop_all. }
      split; intros x (req & Hreq & _); by rewrite Hnone in Hreq.
  - intros ref run. subst run.
    unfold transport_answers, transport_throws, result.
    destruct (uploadStringToStorage_cases remote codecFault self ref st)
      as [(e & st1 & _ & Hrun & Hsent & _)
         |(path & fd & cb & st1 & Hform & Hsent & Htok & Hrun)].
    + assert (issued
                (HasuraStorageClient.uploadStringToStorage remote codecFault self
                   ref) st = []) as Hnone.
      { unfold issued, final. rewrite Hrun. simpl. rewrite Hsent. apply drop_all. }
      split; intros x (req & Hreq & _); by rewrite Hnone in Hreq.
    + pose proof (uploadStringToStorage_issued remote codecFault self ref st
                    path fd cb st1 Hform) as Hone.
      rewrite Hrun. simpl. split.
      * intros body (req & Hreq & H) Hb. rewrite Hone in Hreq.
        injection Hreq as <-. by rewrite H, Hok.
      * intros e (req & Hreq & H) He. rewrite Hone in Hreq.
        injection Hreq as <-. by rewrite H, Hko.
Qed.

Lemma upload_outcomes_witness :
  result
    (HasuraStorageClient.upload Demo.stored Demo.self
       (mkStorageUploadParams Demo.hello None None None)) Demo.idle
  = Returned (mkUploadResponse (Js.Object {[ "id" := Js.Str "f1" ]}) Js.Null)
  /\ result
       (HasuraStorageClient.uploadStringToStorage Demo.down Demo.codec_fault
          Demo.self 0%nat) (Demo.holding Demo.untyped)
     = Returned (mkUploadResponse Js.Null Demo.network_error).
Proof.
  split.
  - apply (proj1 (proj1 (upload_outcomes Demo.stored Demo.codec_fault Demo.self
                           Demo.idle)
                    (mkStorageUploadParams Demo.hello None None None))
             (Js.Object {[ "id" := Js.Str "f1" ]})); [| reflexivity].
    eexists. split; reflexivity.
  - apply (proj2 (proj2 (proj2 (upload_outcomes Demo.down Demo.codec_fault
                                  Demo.self (Demo.holding Demo.untyped)))
                    0%nat) Demo.network_error); [| reflexivity].
    eexists. split; reflexivity.
Defined.

Section StringUploadRuns.

Variable remote : Http.Request -> Http.Outcome.
Variable codecFault : Js.value.
Variable self : Options.

(** The form data of a raw upload, whether ["raw"] was given or
    defaulted: none when the metadata has an own entry [hasOwnProperty]. *)
Lemma stringFormData_raw ref params st :
  objects st !! ref = Some params ->
  Js.startsWith (us_path params) "/" = true ->
  us_type params = Some "raw" \/ Js.truthy_str (us_type params) = false ->
  result (HasuraStorageClient.stringFormData codecFault ref) st
  = match us_metadata params ≫= (fun m => m !! "hasOwnProperty") with
    | Some _ => Thrown Js.TypeError
    | None =>
        Returned
          (us_path params,
           [("file",
             Http.mkFile (Utils.utf8Bytes (us_data params)) "untitled"
               (us_metadata params ≫= fun m => m !! "content-type"))],
           us_onUploadProgress params)
    end.
Proof.
  intros Hobj Hp Htype.
  unfold result, HasuraStorageClient.stringFormData, mbind, Async_bind, deref.
  rewrite Hobj, Hp. simpl. destruct Htype as [Ht | Ht].
  - rewrite Ht. simpl. rewrite Hobj, Ht. simpl.
    unfold mbind, Async_bind, HasuraStorageClient.metadata_content_type.
    destruct (us_metadata params) as [m|]; simpl; [| done].
    by destruct (m !! "hasOwnProperty").
  - rewrite Ht. simpl. rewrite lookup_insert_eq. simpl.
    unfold mbind, Async_bind, HasuraStorageClient.metadata_content_type.
    destruct (us_metadata params) as [m|]; simpl; [| done].
    by destruct (m !! "hasOwnProperty").
Qed.

(** Building the form data looks at the caller's objects only. *)
Lemma stringFormData_ext ref st st' :
  objects st = objects st' ->
  result (HasuraStorageClient.stringFormData codecFault ref) st
  = result (HasuraStorageClient.stringFormData codecFault ref) st'
  /\ objects (final (HasuraStorageClient.stringFormData codecFault ref) st)
     = objects (final (HasuraStorageClient.stringFormData codecFault ref) st').
Proof.
  intros Hobjs. destruct st as [tok snt objs], st' as [tok' snt' objs'].
  simpl in Hobjs. subst objs'.
  unfold result, final, HasuraStorageClient.stringFormData, mbind, Async_bind,
    deref, assign. simpl.
  destruct (objs !! ref) as [params|]; [| done].
  destruct (Js.startsWith (us_path params) "/"); simpl; [| done].
  destruct (Js.truthy_str (us_type params)) eqn:Htype; simpl.
  - destruct (objs !! ref) as [params'|]; [| done].
    destruct (HasuraStorageClient.is_str (us_type params') "raw"); simpl.
    { unfold mbind, Async_bind, HasuraStorageClient.metadata_content_type.
      destruct (us_metadata params') as [m|]; [| done].
      by destruct (m !! "hasOwnProperty"). }
    destruct (HasuraStorageClient.is_str (us_type params') "data_url");
      simpl; [| done].
    unfold HasuraStorageClient.decode_data_url.
    destruct (Js.match_data_url (us_data params')) as [group1|]; [| done].
    destruct (if Js.truthy_str group1 then group1 else None) as [m|];
      unfold mbind, Async_bind, HasuraStorageClient.decoded.
    + destruct (Js.endsWith m ";base64");
        [destruct (Utils.base64Bytes _ _) | destruct (Utils.percentEncodedBytes _)];
        done.
    + by destruct (Utils.percentEncodedBytes _).
  - rewrite !lookup_insert_eq. simpl.
    unfold mbind, Async_bind, HasuraStorageClient.metadata_content_type.
    destruct (us_metadata params) as [m|]; [| done].
    by destruct (m !! "hasOwnProperty").
Qed.

(** Once the default [type] is written, building the form data again
    gives the same form and writes nothing more. *)
Lemma stringFormData_again ref st :
  let st1 := final (HasuraStorageClient.stringFormData codecFault ref) st in
  result (HasuraStorageClient.stringFormData codecFault ref) st1
  = result (HasuraStorageClient.stringFormData codecFault ref) st
  /\ objects (final (HasuraStorageClient.stringFormData codecFault ref) st1)
     = objects st1.
Proof.
  intros st1. subst st1.
  destruct (objects st !! ref) as [params|] eqn:Hobj.
  - rewrite (stringFormData_final codecFault ref params st Hobj).
    destruct (Js.startsWith (us_path params) "/") eqn:Hp; simpl;
      [destruct (Js.truthy_str (us_type params)) eqn:Ht; simpl |].
    + split; [done |].
      rewrite (stringFormData_final codecFault ref params st Hobj).
      by rewrite Hp, Ht.
    + assert (objects
                (mkState (accessToken st) (sent st)
                   (<[ref := with_raw_type params]> (objects st))) !! ref
              = Some (with_raw_type params)) as Hobj1
        by (simpl; by rewrite lookup_insert_eq).
      split.
      * rewrite (stringFormData_raw ref (with_raw_type params) _ Hobj1 Hp)
          by (by left).
        rewrite (stringFormData_raw ref params st Hobj Hp) by (by right).
        done.
      * rewrite (stringFormData_final codecFault ref (with_raw_type params) _
                   Hobj1).
        simpl. by rewrite Bool.andb_false_r.
    + split; [done |].
      rewrite (stringFormData_final codecFault ref params st Hobj).
      by rewrite Hp.
  - assert (final (HasuraStorageClient.stringFormData codecFault ref) st = st)
      as Hfin.
    { unfold final, HasuraStorageClient.stringFormData, mbind, Async_bind, deref.
      by rewrite Hobj. }
    by rewrite !Hfin.
Qed.

End StringUploadRuns.

(** X9. A raw string upload is the file upload of the text: when the path
    starts with [/] and the encoding is ["raw"], given or defaulted, and
    the metadata has no own entry named [hasOwnProperty],
    [uploadStringToStorage] posts to [/o{path}] a form whose single field
    [file] holds the UTF-8 bytes of [data] under the name [untitled], with
    the [content-type] entry of the metadata as content type (none when
    there is no metadata or no such entry), and hands the progress
    observer on; its result and its request are those of
    [uploadFileToStorage] called with that file. When the metadata has an
    own entry named [hasOwnProperty], that entry is called in place of the
    method: the upload throws a [TypeError] and nothing is sent. *)
Theorem raw_string_upload remote codecFault self st ref params :
  objects st !! ref = Some params ->
  Js.startsWith (us_path params) "/" = true ->
  us_type params = Some "raw" \/ Js.truthy_str (us_type params) = false ->
  let run := HasuraStorageClient.uploadStringToStorage remote codecFault self ref in
  let file :=
    Http.mkFile (Utils.utf8Bytes (us_data params)) "untitled"
      (us_metadata params ≫= fun m => m !! "content-type") in
  let as_file :=
    HasuraStorageClient.uploadFileToStorage remote self
      (mkStorageUploadFile (us_path params) file (us_onUploadProgress params)) in
  ((forall m, us_metadata params = Some m -> m !! "hasOwnProperty" = None) ->
   issues_one run st (fun req =>
     Http.method req = Http.POST
     /\ Http.url req = "/o" +:+ us_path params
     /\ Http.data req = Some [("file", file)]
     /\ Http.onUploadProgress req = us_onUploadProgress params)
   /\ result run st = result as_file st
   /\ issued run st = issued as_file st)
  /\ (forall m,
        us_metadata params = Some m ->
        is_Some (m !! "hasOwnProperty") ->
        result run st = Thrown Js.TypeError /\ issued run st = []).
Proof.
  intros Hobj Hp Htype run file as_file. subst run file as_file.
  pose proof (stringFormData_raw codecFault ref params st Hobj Hp Htype) as Hres.
  unfold result in Hres.
  destruct (uploadStringToStorage_cases remote codecFault self ref st)
    as [(e & st1 & Hf & Hrun & Hsent & _)
       |(path & fd & cb & st1 & Hform & Hsent & Htok & Hrun)].
  - rewrite Hf in Hres. simpl in Hres. split.
    + intros Hown. destruct (us_metadata params) as [m|]; simpl in Hres; [| done].
      by rewrite (Hown m eq_refl) in Hres.
    + intros m Hm [v Hv]. rewrite Hm in Hres. simpl in Hres.
      rewrite Hv in Hres. injection Hres as ->.
      unfold result, issued, final. rewrite Hrun. simpl.
      split; [done |]. rewrite Hsent. apply drop_all.
  - rewrite Hform in Hres. simpl in Hres. split.
    + intros Hown.
      assert (us_metadata params ≫= (fun m => m !! "hasOwnProperty") = None)
        as Hnone.
      { destruct (us_metadata params) as [m|]; [| done]. exact (Hown m eq_refl). }
      rewrite Hnone in Hres. injection Hres as -> -> ->.
      pose proof (uploadStringToStorage_issued remote codecFault self ref st _ _ _
                    st1 Hform) as Hone.
      split; [| split].
      * eexists. split; [exact Hone | done].
      * unfold result. rewrite Hrun. by rewrite uploadFileToStorage_run by done.
      * rewrite Hone. symmetry. apply issued_record. unfold final.
        by rewrite uploadFileToStorage_run by done.
    + intros m Hm [v Hv]. rewrite Hm in Hres. simpl in Hres.
      by rewrite Hv in Hres.
Qed.

Lemma raw_string_upload_witness :
  issues_one
    (HasuraStorageClient.uploadStringToStorage Demo.stored Demo.codec_fault
       Demo.self 0%nat) (Demo.holding Demo.untyped)
    (fun req =>
       Http.method req = Http.POST
       /\ Http.url req = "/o/notes.txt"
       /\ Http.data req
          = Some [("file", Http.mkFile (Utils.utf8Bytes "Hello") "untitled" None)]
       /\ Http.onUploadProgress req = None)
  /\ result
       (HasuraStorageClient.uploadStringToStorage Demo.stored Demo.codec_fault
          Demo.self 0%nat) (Demo.holding Demo.shadowed)
     = Thrown Js.TypeError
  /\ issued
       (HasuraStorageClient.uploadStringToStorage Demo.stored Demo.codec_fault
          Demo.self 0%nat) (Demo.holding Demo.shadowed) = [].
Proof.
  split.
  - apply (proj1 (raw_string_upload Demo.stored Demo.codec_fault Demo.self
                    (Demo.holding Demo.untyped) 0%nat Demo.untyped eq_refl eq_refl
                    (or_intror eq_refl))).
    intros m Hm. discriminate Hm.
  - apply (proj2 (raw_string_upload Demo.stored Demo.codec_fault Demo.self
                    (Demo.holding Demo.shadowed) 0%nat Demo.shadowed eq_refl
                    eq_refl (or_introl eq_refl))
             {[ "hasOwnProperty" := "x"; "content-type" := "text/plain" ]}
             eq_refl).
    by exists "x".
Defined.

(** X10. A string upload that is refused changes nothing: with a path
    that does not start with [/] the method throws the path fault, and
    with an encoding that is set but is neither ["raw"] nor ["data_url"]
    it throws [Unbale to generate file data]; in both cases nothing is
    sent and the caller's object is as it was, the [type] field of a
    refused path staying unset. *)
Theorem refused_string_uploads remote codecFault self st ref params :
  objects st !! ref = Some params ->
  let run := HasuraStorageClient.uploadStringToStorage remote codecFault self ref in
  (Js.startsWith (us_path params) "/" = false ->
   run st = (Thrown (Js.new_Error "`path` must start with `/`"), st))
  /\ (Js.startsWith (us_path params) "/" = true ->
      Js.truthy_str (us_type params) = true ->
      us_type params ≠ Some "raw" ->
      us_type params ≠ Some "data_url" ->
      run st = (Thrown (Js.new_Error "Unbale to generate file data"), st)).
Proof.
  intros Hobj run. subst run. split.
  - intros Hp. rewrite uploadStringToStorage_run.
    unfold HasuraStorageClient.stringFormData, mbind, Async_bind, deref.
    by rewrite Hobj, Hp.
  - intros Hp Ht Hraw Hurl. rewrite uploadStringToStorage_run.
    unfold HasuraStorageClient.stringFormData, mbind, Async_bind, deref.
    rewrite Hobj, Hp, Ht. simpl. rewrite Hobj.
    destruct (us_type params) as [t|]; [| done]. simpl.
    destruct (String.eqb_spec t "raw") as [->|_]; [done |].
    destruct (String.eqb_spec t "data_url") as [->|_]; [done |]. done.
Qed.

Lemma refused_string_uploads_witness :
  HasuraStorageClient.uploadStringToStorage Demo.stored Demo.codec_fault Demo.self
    0%nat
    (Demo.holding (mkStorageUploadString "notes.txt" "Hello" None None None))
  = (Thrown (Js.new_Error "`path` must start with `/`"),
     Demo.holding (mkStorageUploadString "notes.txt" "Hello" None None None))
  /\ HasuraStorageClient.uploadStringToStorage Demo.stored Demo.codec_fault
       Demo.self 0%nat
       (Demo.holding
          (mkStorageUploadString "/notes.txt" "Hello" (Some "base64") None None))
     = (Thrown (Js.new_Error "Unbale to generate file data"),
        Demo.holding
          (mkStorageUploadString "/notes.txt" "Hello" (Some "base64") None None)).
Proof.
  split.
  - apply (proj1 (refused_string_uploads Demo.stored Demo.codec_fault Demo.self
                    (Demo.holding
                       (mkStorageUploadString "notes.txt" "Hello" None None None))
                    0%nat _ eq_refl)).
    reflexivity.
  - apply (proj2 (refused_string_uploads Demo.stored Demo.codec_fault Demo.self
                    (Demo.holding
                       (mkStorageUploadString "/notes.txt" "Hello" (Some "base64")
                          None None))
                    0%nat _ eq_refl)); [reflexivity | reflexivity | |];
      discriminate.
Defined.

(** X11. The two path uploads of the facade throw only before anything is
    sent: a call of [uploadFileToStorage] or [uploadStringToStorage]
    either throws without a remote call, or makes exactly one remote call
    and returns a result, whatever that call's outcome. *)
Theorem uploads_throw_before_sending remote codecFault self st :
  (forall params,
     let run := HasuraStorageClient.uploadFileToStorage remote self params in
     (exists e, result run st = Thrown e /\ issued run st = [])
     \/ (exists r req, result run st = Returned r /\ issued run st = [req]))
  /\ (forall ref,
        let run :=
          HasuraStorageClient.uploadStringToStorage remote codecFault self ref in
        (exists e, result run st = Thrown e /\ issued run st = [])
        \/ (exists r req, result run st = Returned r /\ issued run st = [req])).
Proof.
  split.
  - intros params run. subst run.
    destruct (Js.startsWith (uf_path params) "/") eqn:Hp.
    + right. eexists _, _. split.
      * unfold result. by rewrite uploadFileToStorage_run by done.
      * apply issued_record. unfold final.
        by rewrite uploadFileToStorage_run by done.
    + left. eexists.
      unfold result, issued, final, HasuraStorageClient.uploadFileToStorage.
      rewrite Hp. split; [done | apply drop_all].
  - intros ref run. subst run.
    destruct (uploadStringToStorage_cases remote codecFault self ref st)
      as [(e & st1 & _ & Hrun & Hsent & _)
         |(path & fd & cb & st1 & Hform & Hsent & Htok & Hrun)].
    + left. exists e. unfold result, issued, final. rewrite Hrun. simpl.
      rewrite Hsent. split; [done | apply drop_all].
    + right. eexists _, _. split.
      * unfold result. by rewrite Hrun.
      * by eapply uploadStringToStorage_issued.
Qed.

(** ** What the operations leave alone *)

Lemma only_sends_record {A : Type} (c : Async A) st req :
  final c st = record req st -> only_sends c st.
Proof.
  intros H. unfold only_sends. rewrite H. simpl.
  split; [done |]. split; [done |]. by exists [req].
Qed.

Lemma only_sends_nothing {A : Type} (c : Async A) st :
  final c st = st -> only_sends c st.
Proof.
  intros H. unfold only_sends. rewrite H.
  split; [done |]. split; [done |]. exists [].
  split; [by rewrite app_nil_r | simpl; lia].
Qed.

(** X12. No operation of the facade retries or touches what it does not
    own: [upload], [getPresignedUrl], [delete], [uploadFileToStorage],
    [deleteFile] and [getS3Metadata] leave the token and the caller's
    objects as they are and add at most one request after those already
    sent, whatever the service does; [uploadStringToStorage] does the same
    for the token and the requests; and [setAccessToken] replaces the
    token and nothing else. *)
Theorem facade_frame remote codecFault self st :
  (forall params, only_sends (HasuraStorageClient.upload remote self params) st)
  /\ (forall fileId,
        only_sends (HasuraStorageClient.getPresignedUrl remote self fileId) st)
  /\ (forall fileId, only_sends (HasuraStorageClient.delete remote self fileId) st)
  /\ (forall params,
        only_sends (HasuraStorageClient.uploadFileToStorage remote self params) st)
  /\ (forall path, only_sends (HasuraStorageClient.deleteFile remote self path) st)
  /\ (forall path,
        only_sends (HasuraStorageClient.getS3Metadata remote self path) st)
  /\ (forall ref,
        let st' :=
          final
            (HasuraStorageClient.uploadStringToStorage remote codecFault self ref)
            st in
        accessToken st' = accessToken st
        /\ exists reqs, sent st' = sent st ++ reqs /\ (length reqs <= 1)%nat)
  /\ (forall token,
        final (HasuraStorageClient.setAccessToken token) st
        = mkState token (sent st) (objects st)).
Proof.
  split; [| split; [| split; [| split; [| split; [| split; [| split]]]]]].
  - intros params. eapply only_sends_record. unfold final.
    by rewrite client_upload_run.
  - intros fileId. eapply only_sends_record. unfold final.
    by rewrite client_getPresignedUrl_outcome.
  - intros fileId. eapply only_sends_record. unfold final.
    by rewrite client_delete_outcome.
  - intros params. destruct (Js.startsWith (uf_path params) "/") eqn:Hp.
    + eapply only_sends_record. unfold final.
      by rewrite uploadFileToStorage_run by done.
    + apply only_sends_nothing.
      unfold final, HasuraStorageClient.uploadFileToStorage. by rewrite Hp.
  - intros path. destruct (Js.startsWith path "/") eqn:Hp.
    + eapply only_sends_record. by apply client_deleteFile_run.
    + apply only_sends_nothing.
      unfold final, HasuraStorageClient.deleteFile. by rewrite Hp.
  - intros path. destruct (Js.startsWith path "/") eqn:Hp.
    + eapply only_sends_record. by apply client_getS3Metadata_run.
    + apply only_sends_nothing.
      unfold final, HasuraStorageClient.getS3Metadata. by rewrite Hp.
  - intros ref st'. subst st'. unfold final.
    destruct (uploadStringToStorage_cases remote codecFault self ref st)
      as [(e & st1 & _ & Hrun & Hsent & Htok)
         |(path & fd & cb & st1 & Hform & Hsent & Htok & Hrun)];
      rewrite Hrun; simpl.
    + split; [done |]. exists [].
      split; [by rewrite app_nil_r, Hsent | simpl; lia].
    + split; [done |]. eexists [_]. by rewrite Hsent.
  - done.
Qed.

(** X13. The token is a plain overwrite: whatever token was held before,
    after [setAccessToken(t)] with a non-empty [t] every request of the
    adapter carries [Authorization: Bearer t], and after
    [setAccessToken("")] no request carries an [Authorization] header, the
    empty string clearing the token as [undefined] does. *)
Theorem token_last_write_wins remote self st previous :
  (forall t,
     t ≠ "" ->
     every_adapter_request remote self
       (final (HasuraStorageClient.setAccessToken previous
               ≫= fun _ => HasuraStorageClient.setAccessToken (Some t)) st)
       (fun req => authorization req = Some ("Bearer " +:+ t)))
  /\ every_adapter_request remote self
       (final (HasuraStorageClient.setAccessToken previous
               ≫= fun _ => HasuraStorageClient.setAccessToken (Some "")) st)
       (fun req => authorization req = None).
Proof.
  split.
  - intros t Hne.
    eapply every_adapter_request_impl; [| apply every_request_authorization].
    intros req ->. simpl accessToken.
    by rewrite (proj2 (truthy_str_Some t) Hne).
  - eapply every_adapter_request_impl; [| apply every_request_authorization].
    by intros req ->.
Qed.

Lemma token_last_write_wins_witness :
  every_adapter_request Demo.stored Demo.self
    (final (HasuraStorageClient.setAccessToken (Some "old")
            ≫= fun _ => HasuraStorageClient.setAccessToken (Some "new"))
       Demo.idle)
    (fun req => authorization req = Some "Bearer new").
Proof.
  apply (proj1 (token_last_write_wins Demo.stored Demo.self Demo.idle (Some "old"))
           "new").
  discriminate.
Defined.

(** X14. Calling [uploadStringToStorage] again with the same object, as
    the first call left it, writes nothing more to the caller's objects
    and sends the same request as the first call did (none, if the first
    call was refused): the default [type] written by the first call is
    the encoding the first call used. *)
Theorem repeated_string_upload remote codecFault self st ref :
  let run := HasuraStorageClient.uploadStringToStorage remote codecFault self ref in
  objects (final run (final run st)) = objects (final run st)
  /\ issued run (final run st) = issued run st.
Proof.
  intros run. subst run.
  pose proof (stringFormData_again codecFault ref st) as [Hres Hobjs].
  cbv zeta in Hres, Hobjs.
  destruct (uploadStringToStorage_cases remote codecFault self ref st)
    as [(e & st1 & Hf & Hrun & Hsent & Htok)
       |(path & fd & cb & st1 & Hf & Hsent & Htok & Hrun)].
  - assert (final
              (HasuraStorageClient.uploadStringToStorage remote codecFault self ref)
              st = st1) as Hfin by (unfold final; by rewrite Hrun).
    unfold final, result in Hres, Hobjs. rewrite Hf in Hres, Hobjs.
    simpl in Hres, Hobjs. rewrite Hfin.
    destruct (uploadStringToStorage_cases remote codecFault self ref st1)
      as [(e' & st2 & Hf' & Hrun' & Hsent' & Htok')
         |(path & fd & cb & st2 & Hf' & _)];
      [| by rewrite Hf' in Hres].
    rewrite Hf' in Hobjs. simpl in Hobjs.
    unfold issued, final. rewrite Hrun', Hrun. simpl.
    split; [done |]. by rewrite Hsent', Hsent, !drop_all.
  - set (req := Wire.uploadFile self (accessToken st) path fd cb) in *.
    assert (final
              (HasuraStorageClient.uploadStringToStorage remote codecFault self ref)
              st = record req st1) as Hfin by (unfold final; by rewrite Hrun).
    unfold final, result in Hres, Hobjs. rewrite Hf in Hres, Hobjs.
    simpl in Hres, Hobjs.
    destruct (stringFormData_ext codecFault ref (record req st1) st1 eq_refl)
      as [Hres1 Hobjs1].
    unfold final, result in Hres1, Hobjs1.
    rewrite Hfin.
    destruct (uploadStringToStorage_cases remote codecFault self ref
                (record req st1))
      as [(e' & st2 & Hf' & _)
         |(path' & fd' & cb' & st2 & Hf' & Hsent' & Htok' & Hrun')].
    { rewrite Hf' in Hres1. by rewrite <- Hres1 in Hres. }
    rewrite Hf' in Hres1, Hobjs1. simpl in Hres1, Hobjs1.
    rewrite <- Hres1 in Hres. injection Hres as -> -> ->.
    split.
    + unfold final. rewrite Hrun'. simpl. by rewrite Hobjs1, Hobjs.
    + rewrite (uploadStringToStorage_issued remote codecFault self ref _ _ _ _ _ Hf').
      rewrite (uploadStringToStorage_issued remote codecFault self ref _ _ _ _ _ Hf).
      simpl accessToken. by rewrite Htok.
Qed.

(** ** The direct URL and the endpoints *)

(** X15. What [getUrl] names is an address the adapter uses. Without a
    tenant namespace (null or empty), [getUrl(fileId)] is the base URL
    followed by the relative url of the request [delete(fileId)] makes.
    With a tenant namespace, [getUrl(fileId)] does not include the
    service url: prefixed with it, it is the base URL followed by the
    relative url of the request [deleteFile("/" + fileId)] makes, in the
    path-addressed [/o] space and not under [/files]. *)
Theorem getUrl_addresses_endpoints remote self st fileId :
  (Js.truthy_str (opt_appId self) = false ->
   issues_one (HasuraStorageClient.delete remote self fileId) st (fun req =>
     address req = HasuraStorageClient.getUrl self fileId))
  /\ (Js.truthy_str (opt_appId self) = true ->
      issues_one (HasuraStorageClient.deleteFile remote self ("/" +:+ fileId)) st
        (fun req =>
           address req = opt_url self +:+ HasuraStorageClient.getUrl self fileId)).
Proof.
  split; intros Happ.
  - eexists. split.
    + apply issued_record. unfold final. by rewrite client_delete_outcome.
    + unfold address, Wire.delete, Wire.request, HasuraStorageApi.baseURL,
        HasuraStorageClient.getUrl. simpl. by rewrite Happ.
  - eexists. split.
    + apply issued_record. apply client_deleteFile_run.
      apply (startsWith_append "/" fileId).
    + unfold address, Wire.deleteFile, Wire.request, HasuraStorageApi.baseURL,
        HasuraStorageClient.getUrl. simpl. rewrite Happ.
      rewrite <- !append_assoc. by rewrite !append_assoc.
Qed.

Lemma getUrl_addresses_endpoints_witness :
  issues_one (HasuraStorageClient.delete Demo.stored Demo.self "abc") Demo.idle
    (fun req => address req = "https://storage.example.com/files/abc")
  /\ issues_one (HasuraStorageClient.deleteFile Demo.stored Demo.tenant "/abc")
       Demo.idle
       (fun req =>
          address req = "https://storage.example.com/custom/storage/t1/o/abc").
Proof.
  split.
  - apply (proj1 (getUrl_addresses_endpoints Demo.stored Demo.self Demo.idle "abc")).
    reflexivity.
  - apply (proj2 (getUrl_addresses_endpoints Demo.stored Demo.tenant Demo.idle
                    "abc")).
    reflexivity.
Defined.

(** ** The data URL pattern *)

(** X16. The pattern [/^data:([^,]+)?,/] of [uploadStringToStorage]
    accepts exactly the texts that start with [data:] and have a comma
    after it: a text [data:<header>,<rest>] whose header has no comma is
    matched with the header as group 1, the group being absent when the
    header is empty; a text of no such form is not matched; and a matched
    group is never empty, has no comma, and is followed in the text by the
    first comma. *)
Theorem data_url_pattern (s : string) :
  (forall header rest,
     comma_free header ->
     Js.match_data_url ("data:" +:+ header +:+ "," +:+ rest)
     = Some (if String.eqb header "" then None else Some header))
  /\ (Js.match_data_url s = None
      <-> forall header rest, s ≠ "data:" +:+ header +:+ "," +:+ rest)
  /\ (forall group1,
        Js.match_data_url s = Some (Some group1) ->
        group1 ≠ "" /\ comma_free group1
        /\ exists rest, s = "data:" +:+ group1 +:+ "," +:+ rest).
Proof.
  split; [| split].
  - intros header rest Hfree. apply match_data_url_Some. by exists header, rest.
  - apply match_data_url_None.
  - intros group1 Hm.
    apply match_data_url_Some in Hm as (header & rest & -> & Hfree & Hg).
    destruct (String.eqb_spec header "") as [->|Hne]; [done |].
    injection Hg as ->. split; [done |]. split; [done |]. by exists rest.
Qed.

Lemma data_url_pattern_witness :
  Js.match_data_url "data:image/png;base64,iVBORw0KGgo="
  = Some (Some "image/png;base64").
Proof.
  apply (proj1 (data_url_pattern "") "image/png;base64" "iVBORw0KGgo=").
  reflexivity.
Defined.

(** ** The fields a request depends on *)

(** X17. The facade's [upload] honours the identification it is given:
    its request carries the file as the single form field [file], and
    each of [x-nhost-bucket-id], [x-nhost-file-id] and [x-nhost-file-name]
    with the value of [bucketId], [id] and [name] exactly when that field
    is a non-empty string. *)
Theorem facade_upload_request remote self st params :
  issues_one (HasuraStorageClient.upload remote self params) st (fun req =>
    Http.method req = Http.POST /\ Http.url req = "/files"
    /\ Http.data req = Some [("file", up_file params)]
    /\ (forall v, Http.headers req !! "x-nhost-bucket-id" = Some v
                  <-> up_bucketId params = Some v /\ v ≠ "")
    /\ (forall v, Http.headers req !! "x-nhost-file-id" = Some v
                  <-> up_id params = Some v /\ v ≠ "")
    /\ (forall v, Http.headers req !! "x-nhost-file-name" = Some v
                  <-> up_name params = Some v /\ v ≠ "")).
Proof.
  eexists. split.
  { apply issued_record. unfold final. by rewrite client_upload_run. }
  destruct (generateUploadHeaders_lookup
              (mkApiUploadParams [("file", up_file params)] (up_bucketId params)
                 (up_id params) (up_name params))) as (Hb & Hi & Hn).
  unfold Wire.upload, Wire.request. simpl in *.
  rewrite !spread_upload_lookup by done. rewrite Hb, Hi, Hn.
  split; [done |]. split; [done |]. split; [done |].
  split; [| split]; intros v; apply truthy_field.
Qed.

Lemma facade_upload_request_witness :
  issues_one
    (HasuraStorageClient.upload Demo.stored Demo.self
       (mkStorageUploadParams Demo.hello (Some "photos") None (Some "hello.txt")))
    Demo.idle
    (fun req =>
       Http.headers req !! "x-nhost-bucket-id" = Some "photos"
       /\ Http.headers req !! "x-nhost-file-id" = None
       /\ Http.headers req !! "x-nhost-file-name" = Some "hello.txt").
Proof.
  destruct (facade_upload_request Demo.stored Demo.self Demo.idle
              (mkStorageUploadParams Demo.hello (Some "photos") None
                 (Some "hello.txt")))
    as (req & Hreq & _ & _ & _ & Hb & Hi & Hn).
  exists req. split; [exact Hreq |]. split; [| split].
  - apply Hb. split; [reflexivity | discriminate].
  - destruct (Http.headers req !! "x-nhost-file-id") as [v|] eqn:Hv; [| done].
    destruct (proj1 (Hi v) eq_refl) as [Hnone _]. discriminate Hnone.
  - apply Hn. split; [reflexivity | discriminate].
Defined.

Section MetadataUse.

Variable remote : Http.Request -> Http.Outcome.
Variable codecFault : Js.value.
Variable self : Options.

(** Two states that give the same form data and hold the same token make
    the same request. *)
Lemma issued_of_form ref st st' :
  result (HasuraStorageClient.stringFormData codecFault ref) st
  = result (HasuraStorageClient.stringFormData codecFault ref) st' ->
  accessToken st = accessToken st' ->
  issued (HasuraStorageClient.uploadStringToStorage remote codecFault self ref) st
  = issued (HasuraStorageClient.uploadStringToStorage remote codecFault self ref)
      st'.
Proof.
  intros Hres Htok. unfold result in Hres.
  destruct (uploadStringToStorage_cases remote codecFault self ref st)
    as [(e & st1 & Hf & Hrun & Hsent & _)
       |(path & fd & cb & st1 & Hf & _)],
    (uploadStringToStorage_cases remote codecFault self ref st')
    as [(e' & st1' & Hf' & Hrun' & Hsent' & _)
       |(path' & fd' & cb' & st1' & Hf' & _)];
    rewrite Hf, Hf' in Hres; simpl in Hres; try done.
  - unfold issued, final. rewrite Hrun, Hrun'. simpl.
    by rewrite Hsent, Hsent', !drop_all.
  - injection Hres as -> -> ->.
    rewrite (uploadStringToStorage_issued remote codecFault self ref _ _ _ _ _ Hf).
    rewrite (uploadStringToStorage_issued remote codecFault self ref _ _ _ _ _ Hf').
    by rewrite Htok.
Qed.

(** The form data of a data URL does not look at the metadata. *)
Lemma stringFormData_data_url_metadata ref params metadata st :
  objects st !! ref = Some params ->
  us_type params = Some "data_url" ->
  result (HasuraStorageClient.stringFormData codecFault ref)
    (with_object ref (with_metadata metadata params) st)
  = result (HasuraStorageClient.stringFormData codecFault ref) st.
Proof.
  intros Hobj Ht.
  unfold result, with_object, HasuraStorageClient.stringFormData, mbind,
    Async_bind, deref. simpl.
  rewrite lookup_insert_eq, Hobj. simpl.
  destruct (Js.startsWith (us_path params) "/"); simpl; [| done].
  rewrite Ht. simpl. rewrite lookup_insert_eq, Hobj. simpl. rewrite Ht. simpl.
  unfold HasuraStorageClient.decode_data_url.
  destruct (Js.match_data_url (us_data params)) as [group1|]; [| done].
  destruct (if Js.truthy_str group1 then group1 else None) as [m|];
    unfold mbind, Async_bind, HasuraStorageClient.decoded.
  - destruct (Js.endsWith m ";base64");
      [destruct (Utils.base64Bytes _ _) | destruct (Utils.percentEncodedBytes _)];
      done.
  - by destruct (Utils.percentEncodedBytes _).
Qed.

Lemma stringFormData_raw_metadata ref params metadata st :
  objects st !! ref = Some params ->
  us_type params = Some "raw" \/ Js.truthy_str (us_type params) = false ->
  metadata ≫= (fun m => m !! "content-type")
  = us_metadata params ≫= (fun m => m !! "content-type") ->
  (is_Some (metadata ≫= (fun m => m !! "hasOwnProperty"))
   <-> is_Some (us_metadata params ≫= (fun m => m !! "hasOwnProperty"))) ->
  result (HasuraStorageClient.stringFormData codecFault ref)
    (with_object ref (with_metadata metadata params) st)
  = result (HasuraStorageClient.stringFormData codecFault ref) st.
Proof.
  intros Hobj Ht Hct Hown.
  assert (objects (with_object ref (with_metadata metadata params) st) !! ref
          = Some (with_metadata metadata params)) as Hobj'
    by (simpl; by rewrite lookup_insert_eq).
  destruct (Js.startsWith (us_path params) "/") eqn:Hp.
  - rewrite (stringFormData_raw codecFault ref _ _ Hobj') by done.
    rewrite (stringFormData_raw codecFault ref _ _ Hobj) by done.
    simpl. rewrite Hct.
    destruct (metadata ≫= (fun m => m !! "hasOwnProperty")) as [v|],
      (us_metadata params ≫= (fun m => m !! "hasOwnProperty")) as [v'|];
      try done.
    + destruct (proj1 Hown (ex_intro _ v eq_refl)) as [? ?]. done.
    + destruct (proj2 Hown (ex_intro _ v' eq_refl)) as [? ?]. done.
  - unfold result, HasuraStorageClient.stringFormData, mbind, Async_bind, deref.
    rewrite Hobj', Hobj. simpl. by rewrite Hp.
Qed.

End MetadataUse.

(** X18. Of the metadata of a string upload only two entries matter, and
    only for a raw upload: [content-type], which becomes the content type
    of the file, and an own entry named [hasOwnProperty], which makes the
    upload throw before sending. For the encoding ["data_url"] the request
    is the same whatever the metadata, the content type coming from the
    data URL alone; for a raw upload the request is the same for any two
    metadata that have the same [content-type] entry and both have, or
    both lack, an own entry named [hasOwnProperty]. *)
Theorem metadata_use remote codecFault self st ref params metadata :
  objects st !! ref = Some params ->
  let run := HasuraStorageClient.uploadStringToStorage remote codecFault self ref in
  let st' := with_object ref (with_metadata metadata params) st in
  (us_type params = Some "data_url" -> issued run st' = issued run st)
  /\ (us_type params = Some "raw" \/ Js.truthy_str (us_type params) = false ->
      metadata ≫= (fun m => m !! "content-type")
      = us_metadata params ≫= (fun m => m !! "content-type") ->
      (is_Some (metadata ≫= (fun m => m !! "hasOwnProperty"))
       <-> is_Some (us_metadata params ≫= (fun m => m !! "hasOwnProperty"))) ->
      issued run st' = issued run st).
Proof.
  intros Hobj run st'. subst run st'. split.
  - intros Ht. apply issued_of_form; [| done].
    by apply stringFormData_data_url_metadata.
  - intros Ht Hct Hown. apply issued_of_form; [| done].
    by apply stringFormData_raw_metadata.
Qed.

Lemma metadata_use_witness :
  issued
    (HasuraStorageClient.uploadStringToStorage Demo.stored Demo.codec_fault
       Demo.self 0%nat)
    (with_object 0%nat
       (with_metadata (Some {[ "content-type" := "image/png" ]}) Demo.base64_hello)
       (Demo.holding Demo.base64_hello))
  = issued
      (HasuraStorageClient.uploadStringToStorage Demo.stored Demo.codec_fault
         Demo.self 0%nat) (Demo.holding Demo.base64_hello)
  /\ issued
       (HasuraStorageClient.uploadStringToStorage Demo.stored Demo.codec_fault
          Demo.self 0%nat)
       (with_object 0%nat
          (with_metadata (Some {[ "cache-control" := "no-cache" ]}) Demo.untyped)
          (Demo.holding Demo.untyped))
     = issued
         (HasuraStorageClient.uploadStringToStorage Demo.stored Demo.codec_fault
            Demo.self 0%nat) (Demo.holding Demo.untyped).
Proof.
  split.
  - apply (proj1 (metadata_use Demo.stored Demo.codec_fault Demo.self
                    (Demo.holding Demo.base64_hello) 0%nat Demo.base64_hello
                    (Some {[ "content-type" := "image/png" ]}) eq_refl)).
    reflexivity.
  - apply (proj2 (metadata_use Demo.stored Demo.codec_fault Demo.self
                    (Demo.holding Demo.untyped) 0%nat Demo.untyped
                    (Some {[ "cache-control" := "no-cache" ]}) eq_refl)).
    + right. reflexivity.
    + reflexivity.
    + split; intros [v Hv]; discriminate Hv.
Defined.

(** ** The shape of the results *)





